(** * Walmart MCP server: the tool-invocation gateway

    A shallow embedding of [mcp_servers/walmart]: the credential resolver
    of [tools/base.py], the three search operations of [tools/search.py]
    and the dispatcher [call_tool] of [server.py], followed by the
    properties of the gateway that its specification states.

    Python values are an inductive type, dictionaries are insertion-ordered
    association lists, and the effects of the code (log records, the
    outbound HTTP GET, exceptions) are threaded through a small monad that
    reads the surroundings of an invocation and writes the list of events
    the invocation produced. *)

From Stdlib Require Import String Ascii ZArith QArith List Bool Lia DecimalString.
Import ListNotations.

Local Open Scope string_scope.
Local Open Scope Z_scope.

Set Warnings "-register-all".

(** ** Python values *)

(** The values that travel through the gateway: what [json.loads] can
    produce for an argument mapping or a backend body.  Floats are the
    finite JSON numbers, kept as rationals. *)
Inductive pyval : Type :=
| PNone
| PBool (b : bool)
| PInt (n : Z)
| PFloat (q : Q)
| PStr (s : string)
| PList (l : list pyval)
| PDict (d : list (string * pyval)).

(** A [dict] with string keys, in insertion order. *)
Definition dict := list (string * pyval).

(** [bool(v)]: the truth value Python gives to [v] in [if v] and [not v]. *)
Definition truthy (v : pyval) : bool :=
  match v with
  | PNone => false
  | PBool b => b
  | PInt n => negb (n =? 0)
  | PFloat q => negb (Qeq_bool q 0)
  | PStr s => negb (s =? "")%string
  | PList l => match l with [] => false | _ => true end
  | PDict d => match d with [] => false | _ => true end
  end.

(** [v is not None]. *)
Definition is_not_None (v : pyval) : bool :=
  match v with PNone => false | _ => true end.

(** [v != s] for a string literal [s]: only an equal [str] compares equal. *)
Definition ne_str (v : pyval) (s : string) : bool :=
  match v with
  | PStr s' => negb (s' =? s)%string
  | _ => true
  end.

(** [type(v).__name__], as it appears in the interpreter's messages. *)
Definition type_name (v : pyval) : string :=
  match v with
  | PNone => "NoneType"
  | PBool _ => "bool"
  | PInt _ => "int"
  | PFloat _ => "float"
  | PStr _ => "str"
  | PList _ => "list"
  | PDict _ => "dict"
  end.

(** [d.get(k)]: the value bound to [k], if any. *)
Fixpoint dict_get (k : string) (d : dict) : option pyval :=
  match d with
  | [] => None
  | (k', v) :: d' => if (k' =? k)%string then Some v else dict_get k d'
  end.

(** [k in d]. *)
Definition dict_has (k : string) (d : dict) : bool :=
  match dict_get k d with Some _ => true | None => false end.

(** [d[k] = v]: overwrite in place when [k] is bound, append otherwise. *)
Fixpoint dict_set (d : dict) (k : string) (v : pyval) : dict :=
  match d with
  | [] => [(k, v)]
  | (k', v') :: d' =>
      if (k' =? k)%string then (k', v) :: d' else (k', v') :: dict_set d' k v
  end.

(** The failure payload [{"error": msg}]. *)
Definition error_envelope (msg : string) : pyval := PDict [("error", PStr msg)].

(** ** Exceptions, events and the surroundings of an invocation *)

(** Exception classes, as far as the [except] clauses of the code tell them
    apart.  [RequestException] stands for [requests.exceptions.RequestException]
    and all its subclasses ([ConnectionError], [HTTPError], [Timeout], ...);
    [OtherException] for any other subclass of [Exception]. *)
Inductive exn_class : Type :=
| RequestException
| RuntimeError
| LookupError
| TypeError
| ValueError
| OtherException.

(** A raised exception: its class and [str(e)]. *)
Record exn : Type := Exn { exn_cls : exn_class; exn_str : string }.

Inductive log_level : Type := DEBUG | INFO | WARNING | ERROR.

(** An outbound request: what [requests.get(url, headers=..., params=...)]
    is called with. *)
Record OutboundRequest : Type := Request {
  url : string;
  headers : dict;
  params : dict
}.

(** What an invocation does that can be seen from outside: a record handed
    to a logger, or an outbound GET. *)
Inductive event : Type :=
| Logged (level : log_level) (message : string)
| HttpGet (request : OutboundRequest).

(** The [Response] object, as far as the code uses it: the status code and
    the reason phrase the backend answered with, the URL the response came
    from, and what [json()] does, which either yields the decoded body or
    raises. *)
Record Response : Type := {
  status_code : Z;
  reason : string;
  response_url : string;
  body_json : exn + pyval
}.

(** What [raise_for_status()] of the requests library does with a
    response: for a status from 400 to 499 and for one from 500 to 599 it
    raises an [HTTPError] (a [RequestException]) with the text given here;
    for every other status, a 3xx that was not followed included, it
    passes. *)
Definition status_error (response : Response) : option string :=
  let code := status_code response in
  if (400 <=? code) && (code <? 500) then
    Some (NilZero.string_of_int (Z.to_int code) ++ " Client Error: "
            ++ reason response ++ " for url: " ++ response_url response)
  else if (500 <=? code) && (code <? 600) then
    Some (NilZero.string_of_int (Z.to_int code) ++ " Server Error: "
            ++ reason response ++ " for url: " ++ response_url response)
  else None.

(** The surroundings of one invocation: the value of the context variable
    [auth_token_context] ([None] when it was never set in this context), the
    value of [WALMART_API_KEY] in the environment ([None] when absent), and
    the backend: what a GET of a given request raises or returns. *)
Record world : Type := {
  context_token : option string;
  environ_token : option string;
  backend : OutboundRequest -> exn + Response
}.

(** ** The effect monad *)

Inductive outcome (A : Type) : Type :=
| Returns (a : A)
| Raises (e : exn).
Arguments Returns {A} a.
Arguments Raises {A} e.

(** A computation reads the world and yields an outcome together with the
    events it produced, oldest first. *)
Definition M (A : Type) : Type := world -> outcome A * list event.

Definition ret {A} (a : A) : M A := fun _ => (Returns a, []).

Definition bind {A B} (m : M A) (k : A -> M B) : M B :=
  fun w =>
    match m w with
    | (Returns a, evs) => let (r, evs') := k a w in (r, (evs ++ evs')%list)
    | (Raises e, evs) => (Raises e, evs)
    end.

Definition raise {A} (c : exn_class) (msg : string) : M A :=
  fun _ => (Raises (Exn c msg), []).

Definition reraise {A} (e : exn) : M A := fun _ => (Raises e, []).

Definition emit (ev : event) : M unit := fun _ => (Returns tt, [ev]).

Definition ask : M world := fun w => (Returns w, []).

Declare Scope py_scope.
Delimit Scope py_scope with py.
Notation "x <- m ;; k" := (bind m (fun x => k))
  (at level 100, m at next level, right associativity) : py_scope.
Notation "m ;; k" := (bind m (fun _ => k))
  (at level 100, right associativity) : py_scope.
Local Open Scope py_scope.

(** [try: body except <clauses>]: the first clause whose class test accepts
    the exception handles it; with no such clause it propagates. *)
Fixpoint select_handler {A} (clauses : list ((exn_class -> bool) * (exn -> M A)))
    (e : exn) : M A :=
  match clauses with
  | [] => reraise e
  | (accepts, handler) :: rest =>
      if accepts (exn_cls e) then handler e else select_handler rest e
  end.

Definition try_except {A} (body : M A)
    (clauses : list ((exn_class -> bool) * (exn -> M A))) : M A :=
  fun w =>
    match body w with
    | (Returns a, evs) => (Returns a, evs)
    | (Raises e, evs) =>
        let (r, evs') := select_handler clauses e w in (r, (evs ++ evs')%list)
    end.

(** [except RuntimeError], [except LookupError],
    [except requests.exceptions.RequestException], [except Exception]. *)
Definition is_RuntimeError (c : exn_class) : bool :=
  match c with RuntimeError => true | _ => false end.
Definition is_LookupError (c : exn_class) : bool :=
  match c with LookupError => true | _ => false end.
Definition is_RequestException (c : exn_class) : bool :=
  match c with RequestException => true | _ => false end.
Definition is_Exception (c : exn_class) : bool := true.

(** The outbound requests among the events, in order. *)
Fixpoint calls (evs : list event) : list OutboundRequest :=
  match evs with
  | [] => []
  | HttpGet r :: evs' => r :: calls evs'
  | Logged _ _ :: evs' => calls evs'
  end.

Definition log (level : log_level) (message : string) : M unit :=
  emit (Logged level message).

(** ** The library calls of the code *)

(** [requests.get(url, headers=headers, params=params)]: one outbound call,
    which raises or returns what the backend of the world says. *)
Definition requests_get (url : string) (headers params : dict) : M Response :=
  let request := Request url headers params in
  emit (HttpGet request) ;;
  w <- ask ;;
  match backend w request with
  | inl e => reraise e
  | inr response => ret response
  end.

(** [response.raise_for_status()]. *)
Definition raise_for_status (response : Response) : M unit :=
  match status_error response with
  | Some msg => raise RequestException msg
  | None => ret tt
  end.

(** [response.json()]. *)
Definition json (response : Response) : M pyval :=
  match body_json response with
  | inl e => reraise e
  | inr v => ret v
  end.

(** [auth_token_context.get()]: the variable has no default, so reading it
    where it was never set raises [LookupError]. *)
Definition auth_token_context_get : M pyval :=
  w <- ask ;;
  match context_token w with
  | Some token => ret (PStr token)
  | None => raise LookupError "<ContextVar name='auth_token'>"
  end.

(** [os.getenv("WALMART_API_KEY")]. *)
Definition os_getenv_WALMART_API_KEY : M pyval :=
  w <- ask ;;
  ret (match environ_token w with Some token => PStr token | None => PNone end).

(** [min(a, b)] for an [int] constant [b], where the two can be ordered:
    [b] is the result only when [b < a], so [a] comes back as it is
    otherwise.  [None] when [a] is no number. *)
Definition min_with_int (a : pyval) (b : Z) : option pyval :=
  match a with
  | PInt n => Some (if b <? n then PInt b else a)
  | PBool x => Some (if b <? (if x then 1 else 0) then PInt b else a)
  | PFloat q => Some (if Qle_bool q (inject_Z b) then a else PInt b)
  | _ => None
  end.

(** [min(a, b)]: comparing an [int] with a value that is no number raises
    [TypeError]. *)
Definition py_min (a : pyval) (b : Z) : M pyval :=
  match min_with_int a b with
  | Some v => ret v
  | None =>
      raise TypeError
        ("'<' not supported between instances of 'int' and '"
           ++ type_name a ++ "'")
  end.

(** ** Binding keyword arguments: calling a function with an unpacked dict *)

(** A signature: the parameters in order, each with its default if it has
    one. *)
Definition signature := list (string * option pyval).

Definition is_param (sig : signature) (k : string) : bool :=
  existsb (fun p => (fst p =? k)%string) sig.

(** The first key of [arguments] that names no parameter. *)
Definition unexpected_keyword (sig : signature) (arguments : dict) : option string :=
  option_map fst (find (fun kv => negb (is_param sig (fst kv))) arguments).

(** The parameters without default that [arguments] leaves out. *)
Definition missing_required (sig : signature) (arguments : dict) : list string :=
  map fst
    (filter (fun p => match snd p with
                      | None => negb (dict_has (fst p) arguments)
                      | Some _ => false
                      end) sig).

(** The names of the missing parameters, as the interpreter lists them:
    ['a'], ['a' and 'b'], ['a', 'b', and 'c']. *)
Fixpoint quoted_names (names : list string) : string :=
  match names with
  | [] => ""
  | [a] => "'" ++ a ++ "'"
  | [a; b] => "'" ++ a ++ "' and '" ++ b ++ "'"
  | a :: (_ :: _ :: _) as rest =>
      "'" ++ a ++ "', " ++
      (match rest with
       | [b; c] => "'" ++ b ++ "', and '" ++ c ++ "'"
       | _ => quoted_names rest
       end)
  end.

Definition missing_message (fname : string) (names : list string) : string :=
  fname ++ "() missing "
    ++ NilZero.string_of_uint (Nat.to_uint (List.length names))
    ++ " required positional argument"
    ++ (match names with [_] => "" | _ => "s" end)
    ++ ": " ++ quoted_names names.

(** The value each parameter is bound to: the argument when supplied, the
    default otherwise. *)
Definition bound_values (sig : signature) (arguments : dict) : dict :=
  map (fun p => (fst p,
                 match dict_get (fst p) arguments with
                 | Some v => v
                 | None => match snd p with Some d => d | None => PNone end
                 end)) sig.

(** Binding [arguments] to the parameters of [fname]: an unknown keyword is
    reported first, then the required parameters left out. *)
Definition bind_kwargs (fname : string) (sig : signature) (arguments : dict) : M dict :=
  match unexpected_keyword sig arguments with
  | Some k =>
      raise TypeError
        (fname ++ "() got an unexpected keyword argument '" ++ k ++ "'")
  | None =>
      match missing_required sig arguments with
      | [] => ret (bound_values sig arguments)
      | names => raise TypeError (missing_message fname names)
      end
  end.

(** The value bound to parameter [k]. *)
Definition arg (bound : dict) (k : string) : pyval :=
  match dict_get k bound with Some v => v | None => PNone end.

(** ** The gateway *)

Section Gateway.

(** Two functions of the interpreter and its library are taken as given:
    [repr] of a float or of a container, and
    [json.dumps(result, indent=2)] on JSON-compatible values. *)
Variable py_repr : pyval -> string.
Variable json_dumps : pyval -> string.

(** [str(v)], which is what an f-string field [{v}] formats to. *)
Definition py_str (v : pyval) : string :=
  match v with
  | PStr s => s
  | PNone => "None"
  | PBool true => "True"
  | PBool false => "False"
  | PInt n => NilZero.string_of_int (Z.to_int n)
  | _ => py_repr v
  end.

(** *** tools/base.py *)

Definition no_token_message : string :=
  "No Walmart auth token found in context or environment".

Definition get_auth_token : M pyval :=
  try_except
    (token <- auth_token_context_get ;;
     if negb (truthy token) then
       token <- os_getenv_WALMART_API_KEY ;;
       log DEBUG ("Using token from environment: " ++ py_str token) ;;
       if negb (truthy token) then raise RuntimeError no_token_message
       else ret token
     else ret token)
    [(is_LookupError,
      fun _ =>
        token <- os_getenv_WALMART_API_KEY ;;
        if negb (truthy token) then raise RuntimeError no_token_message
        else ret token)].

Definition get_walmart_client : M pyval :=
  try_except
    (auth_token <- get_auth_token ;;
     ret auth_token)
    [(is_RuntimeError,
      fun e =>
        log WARNING ("Failed to get Walmart auth token: " ++ exn_str e) ;;
        ret PNone);
     (is_Exception,
      fun e =>
        log ERROR ("Failed to initialize Walmart client: " ++ exn_str e) ;;
        ret PNone)].

(** *** tools/search.py *)

Definition request_headers (token : pyval) : dict :=
  [("Accept", PStr "application/json");
   ("WM_SEC.ACCESS_TOKEN", token);
   ("WM_QOS.CORRELATION_ID", PStr "walmart-mcp-server")].

Definition missing_token : M pyval :=
  log ERROR "Could not get Walmart API token" ;;
  ret (error_envelope "Missing Walmart API token").

(** [if c: params[k] = v]. *)
Definition set_if (c : bool) (k : string) (v : pyval) (params : dict) : dict :=
  if c then dict_set params k v else params.

(** The query parameters of a product search, after the optional ones were
    added. *)
Definition product_search_params
    (query lim offset sort min_price max_price in_stock category_id : pyval) : dict :=
  let params := [("query", query); ("limit", lim); ("offset", offset)] in
  let params := set_if (truthy sort && ne_str sort "relevance") "sort" sort params in
  let params := set_if (is_not_None min_price) "minPrice" min_price params in
  let params := set_if (is_not_None max_price) "maxPrice" max_price params in
  let params := set_if (is_not_None in_stock) "inStock" in_stock params in
  let params := set_if (truthy category_id) "categoryId" category_id params in
  params.

Definition walmart_product_search
    (query limit offset sort min_price max_price in_stock category_id : pyval)
    : M pyval :=
  token <- get_walmart_client ;;
  if negb (truthy token) then missing_token
  else
    let url := "https://api.walmart.com/v3/items/search" in
    let headers := request_headers token in
    lim <- py_min limit 50 ;;
    let params :=
      product_search_params query lim offset sort min_price max_price
        in_stock category_id in
    log INFO ("Sending Walmart product search request: " ++ py_str query) ;;
    try_except
      (response <- requests_get url headers params ;;
       raise_for_status response ;;
       log INFO "Received Walmart product search response" ;;
       json response)
      [(is_RequestException,
        fun e =>
          log ERROR ("Walmart product search failed: " ++ exn_str e) ;;
          ret (error_envelope
                 ("Could not complete Walmart product search for query: "
                    ++ py_str query)));
       (is_Exception,
        fun e =>
          log ERROR ("Unexpected error in Walmart product search: " ++ exn_str e) ;;
          ret (error_envelope
                 ("Unexpected error in Walmart product search: " ++ exn_str e)))].

Definition walmart_store_search (location radius limit : pyval) : M pyval :=
  token <- get_walmart_client ;;
  if negb (truthy token) then missing_token
  else
    let url := "https://api.walmart.com/v3/stores" in
    let headers := request_headers token in
    lim <- py_min limit 20 ;;
    let params := [("location", location); ("radius", radius); ("limit", lim)] in
    log INFO ("Sending Walmart store search request for location: "
                ++ py_str location) ;;
    try_except
      (response <- requests_get url headers params ;;
       raise_for_status response ;;
       log INFO "Received Walmart store search response" ;;
       json response)
      [(is_RequestException,
        fun e =>
          log ERROR ("Walmart store search failed: " ++ exn_str e) ;;
          ret (error_envelope
                 ("Could not complete Walmart store search for location: "
                    ++ py_str location)));
       (is_Exception,
        fun e =>
          log ERROR ("Unexpected error in Walmart store search: " ++ exn_str e) ;;
          ret (error_envelope
                 ("Unexpected error in Walmart store search: " ++ exn_str e)))].

(** The endpoint of a category search. *)
Definition category_url (parent_id : pyval) : string :=
  if truthy parent_id
  then "https://api.walmart.com/v3/items/categories/" ++ py_str parent_id
  else "https://api.walmart.com/v3/items/categories".

Definition walmart_category_search (query parent_id limit : pyval) : M pyval :=
  token <- get_walmart_client ;;
  if negb (truthy token) then missing_token
  else
    let url := category_url parent_id in
    let headers := request_headers token in
    lim <- py_min limit 50 ;;
    let params := [("limit", lim)] in
    let params := set_if (truthy query) "query" query params in
    log INFO "Sending Walmart category search request" ;;
    try_except
      (response <- requests_get url headers params ;;
       raise_for_status response ;;
       log INFO "Received Walmart category search response" ;;
       json response)
      [(is_RequestException,
        fun e =>
          log ERROR ("Walmart category search failed: " ++ exn_str e) ;;
          ret (error_envelope "Could not complete Walmart category search"));
       (is_Exception,
        fun e =>
          log ERROR ("Unexpected error in Walmart category search: " ++ exn_str e) ;;
          ret (error_envelope
                 ("Unexpected error in Walmart category search: " ++ exn_str e)))].

(** *** server.py *)

(** The parameters of the three operations with their defaults. *)
Definition product_search_sig : signature :=
  [("query", None); ("limit", Some (PInt 10)); ("offset", Some (PInt 0));
   ("sort", Some (PStr "relevance")); ("min_price", Some PNone);
   ("max_price", Some PNone); ("in_stock", Some PNone);
   ("category_id", Some PNone)].

Definition store_search_sig : signature :=
  [("location", None); ("radius", Some (PInt 25)); ("limit", Some (PInt 10))].

Definition category_search_sig : signature :=
  [("query", Some PNone); ("parent_id", Some PNone); ("limit", Some (PInt 20))].

(** The three operations called with the argument mapping unpacked. *)
Definition call_product_search (arguments : dict) : M pyval :=
  a <- bind_kwargs "walmart_product_search" product_search_sig arguments ;;
  walmart_product_search (arg a "query") (arg a "limit") (arg a "offset")
    (arg a "sort") (arg a "min_price") (arg a "max_price") (arg a "in_stock")
    (arg a "category_id").

Definition call_store_search (arguments : dict) : M pyval :=
  a <- bind_kwargs "walmart_store_search" store_search_sig arguments ;;
  walmart_store_search (arg a "location") (arg a "radius") (arg a "limit").

Definition call_category_search (arguments : dict) : M pyval :=
  a <- bind_kwargs "walmart_category_search" category_search_sig arguments ;;
  walmart_category_search (arg a "query") (arg a "parent_id") (arg a "limit").

Record TextContent : Type := { type : string; text : string }.

(** The branch chain of [call_tool]: the operation that [name] selects,
    called with the argument mapping unpacked. *)
Definition dispatch (name : string) (arguments : dict) : M pyval :=
  if (name =? "walmart_product_search")%string then
    call_product_search arguments
  else if (name =? "walmart_store_search")%string then
    call_store_search arguments
  else if (name =? "walmart_category_search")%string then
    call_category_search arguments
  else raise ValueError ("Unknown tool: " ++ name).

Definition call_tool (name : string) (arguments : dict) : M (list TextContent) :=
  log INFO ("Calling tool: " ++ name ++ " with arguments: "
              ++ py_str (PDict arguments)) ;;
  try_except
    (result <- dispatch name arguments ;;
     ret [{| type := "text"; text := json_dumps result |}])
    [(is_Exception,
      fun e =>
        log ERROR ("Error calling tool " ++ name ++ ": " ++ exn_str e) ;;
        ret [{| type := "text";
                text := json_dumps (error_envelope (exn_str e)) |}])].

End Gateway.

(** ** The catalog: [list_tools] of server.py *)

Record Tool : Type := {
  name : string;
  description : string;
  inputSchema : pyval
}.

(** The text of a triple-quoted description of the source: a line break,
    then the two sentences, each on a line of its own at the indentation of
    the source with an empty line between them, then the indentation of the
    closing quotes. *)
Definition newline : string := String (ascii_of_nat 10) EmptyString.
Definition indentation : string := "                ".

Definition docstring (summary typical_use : string) : string :=
  newline ++ indentation ++ summary ++ newline
    ++ newline ++ indentation ++ typical_use ++ newline
    ++ indentation.

(** One entry of [properties]: its JSON type and its description. *)
Definition property (ty text : string) : pyval :=
  PDict [("type", PStr ty); ("description", PStr text)].

Definition list_tools : list Tool :=
  [ {| name := "walmart_product_search";
       description :=
         docstring "Search for Walmart products."
           "Typical use: search for products by query, with optional filters for price, category, availability, and sorting.";
       inputSchema :=
         PDict
           [("type", PStr "object");
            ("properties",
             PDict
               [("query", property "string" "Required. The product search query.");
                ("limit",
                 property "integer"
                   "Number of results to return (max 50, default 10).");
                ("offset",
                 property "integer" "Zero-based offset for pagination.");
                ("sort",
                 PDict
                   [("type", PStr "string");
                    ("enum",
                     PList [PStr "relevance"; PStr "price_low";
                            PStr "price_high"; PStr "rating"; PStr "newest"]);
                    ("description", PStr "Sort order for results.")]);
                ("min_price", property "number" "Minimum price filter.");
                ("max_price", property "number" "Maximum price filter.");
                ("in_stock",
                 property "boolean" "Filter for in-stock items only.");
                ("category_id",
                 property "string" "Filter by specific category ID.")]);
            ("required", PList [PStr "query"])] |};
    {| name := "walmart_store_search";
       description :=
         docstring "Search for Walmart stores near a location."
           "Typical use: find Walmart stores by zip code, city, or coordinates.";
       inputSchema :=
         PDict
           [("type", PStr "object");
            ("properties",
             PDict
               [("location",
                 property "string"
                   "Required. Location to search (zip code, city, or coordinates).");
                ("radius",
                 property "integer" "Search radius in miles (default 25).");
                ("limit",
                 property "integer"
                   "Number of stores to return (max 20, default 10).")]);
            ("required", PList [PStr "location"])] |};
    {| name := "walmart_category_search";
       description :=
         docstring "Search for Walmart product categories."
           "Typical use: browse categories or find specific category information.";
       inputSchema :=
         PDict
           [("type", PStr "object");
            ("properties",
             PDict
               [("query",
                 property "string" "Optional. Category name to search for.");
                ("parent_id",
                 property "string"
                   "Optional. Parent category ID to get subcategories.");
                ("limit",
                 property "integer"
                   "Number of categories to return (max 50, default 20).")])] |} ].

(** ** Vocabulary of the specification *)

(** A source of credentials yields a token when it holds a non-empty one. *)
Definition has_token (o : option string) : bool :=
  match o with
  | Some t => negb (t =? "")%string
  | None => false
  end.

(** The order of resolution as the specification words it: the
    per-invocation context value if present and non-empty, else the
    process-wide environment default if non-empty, else nothing. *)
Definition resolve_credential (w : world) : option string :=
  if has_token (context_token w) then context_token w
  else if has_token (environ_token w) then environ_token w
  else None.

(** The value the client helper hands to an operation. *)
Definition client_token (w : world) : pyval :=
  match resolve_credential w with
  | Some t => PStr t
  | None => PNone
  end.

(** An argument counts as supplied when it is bound to something other
    than [None]. *)
Definition supplied (v : pyval) : bool := is_not_None v.

(** A filter is in the outbound query exactly when its argument was
    supplied. *)
Definition included_exactly_when_supplied (key : string) (v : pyval)
    (query : dict) : Prop :=
  dict_has key query = true <-> supplied v = true.

(** The numbers: the values [min] can order against an [int]. *)
Definition is_number (v : pyval) : bool :=
  match v with
  | PInt _ | PBool _ | PFloat _ => true
  | _ => false
  end.

(** [needle] occurs in [s] as a contiguous run of characters. *)
Fixpoint occurs (needle s : string) : bool :=
  if String.prefix needle s then true
  else match s with
       | EmptyString => false
       | String _ s' => occurs needle s'
       end.



(** The exception, if any, that the outbound call or the decoding of its
    response raised and that is no [RequestException]. *)
Definition unexpected (e : exn) : option exn :=
  if is_RequestException (exn_cls e) then None else Some e.

Definition unexpected_fault (r : exn + Response) : option exn :=
  match r with
  | inl e => unexpected e
  | inr response =>
      match status_error response with
      | Some _ => None
      | None =>
          match body_json response with
          | inl e => unexpected e
          | inr _ => None
          end
      end
  end.

(** The argument mapping does not fit the signature: it has a key that
    names no parameter, or lacks a parameter that has no default. *)
Definition mismatch (sig : signature) (arguments : dict) : bool :=
  existsb (fun kv => negb (is_param sig (fst kv))) arguments
  || existsb (fun p => match snd p with
                       | None => negb (dict_has (fst p) arguments)
                       | Some _ => false
                       end) sig.

(** The operations the dispatcher knows, each with its signature. *)
Definition registered : list (string * signature) :=
  [("walmart_product_search", product_search_sig);
   ("walmart_store_search", store_search_sig);
   ("walmart_category_search", category_search_sig)].

Fixpoint signature_of_in (table : list (string * signature)) (name : string)
    : option signature :=
  match table with
  | [] => None
  | (n, sig) :: rest =>
      if (name =? n)%string then Some sig else signature_of_in rest name
  end.

Definition signature_of (name : string) : option signature :=
  signature_of_in registered name.

(** What an operation settles on, given what the outbound call yielded: the
    decoded body on success, the operation's own message on a
    [RequestException], and the second message followed by the text of the
    exception on anything else. *)
Definition on_exception (transport_msg unexpected_prefix : string) (e : exn) : pyval :=
  if is_RequestException (exn_cls e) then error_envelope transport_msg
  else error_envelope (unexpected_prefix ++ exn_str e).

Definition settle (transport_msg unexpected_prefix : string) (r : exn + Response)
    : pyval :=
  match r with
  | inl e => on_exception transport_msg unexpected_prefix e
  | inr response =>
      match status_error response with
      | Some _ => error_envelope transport_msg
      | None =>
          match body_json response with
          | inl e => on_exception transport_msg unexpected_prefix e
          | inr v => v
          end
      end
  end.

(** The three requests, as the operations assemble them from the token and
    the bound parameters, with [lim] the clamped limit. *)
Definition product_search_request (token query lim offset sort min_price
    max_price in_stock category_id : pyval) : OutboundRequest :=
  Request "https://api.walmart.com/v3/items/search" (request_headers token)
    (product_search_params query lim offset sort min_price max_price in_stock
       category_id).

Definition store_search_request (token location radius lim : pyval)
    : OutboundRequest :=
  Request "https://api.walmart.com/v3/stores" (request_headers token)
    [("location", location); ("radius", radius); ("limit", lim)].

Definition category_search_request (py_repr : pyval -> string)
    (token query parent_id lim : pyval) : OutboundRequest :=
  Request (category_url py_repr parent_id) (request_headers token)
    (set_if (truthy query) "query" query [("limit", lim)]).

(** The messages of the three operations. *)
Definition product_transport_msg (py_repr : pyval -> string) (query : pyval) : string :=
  "Could not complete Walmart product search for query: " ++ py_str py_repr query.
Definition store_transport_msg (py_repr : pyval -> string) (location : pyval) : string :=
  "Could not complete Walmart store search for location: " ++ py_str py_repr location.
Definition category_transport_msg : string :=
  "Could not complete Walmart category search".

Definition product_unexpected_prefix : string :=
  "Unexpected error in Walmart product search: ".
Definition store_unexpected_prefix : string :=
  "Unexpected error in Walmart store search: ".
Definition category_unexpected_prefix : string :=
  "Unexpected error in Walmart category search: ".

(** ** Sample surroundings, for running the gateway on examples *)

(** Stand-ins for the two interpreter functions. *)
Definition sample_repr (v : pyval) : string := "<" ++ type_name v ++ ">".

Definition sample_dumps (v : pyval) : string :=
  match v with
  | PDict [("error", PStr msg)] => "{error: " ++ msg ++ "}"
  | _ => "<" ++ type_name v ++ ">"
  end.

(** The answer of a backend to [request] with a status, a reason phrase
    and a body. *)
Definition answer_to (request : OutboundRequest) (code : Z) (phrase : string)
    (body : exn + pyval) : Response :=
  {| status_code := code;
     reason := phrase;
     response_url := url request;
     body_json := body |}.

Definition empty_body (request : OutboundRequest) : Response :=
  answer_to request 200 "OK" (inr (PDict [])).

(** No credential anywhere. *)
Definition world_without_token : world :=
  {| context_token := None;
     environ_token := None;
     backend := fun request => inr (empty_body request) |}.

(** An empty context value and no environment fallback. *)
Definition world_with_empty_context : world :=
  {| context_token := Some "";
     environ_token := None;
     backend := fun request => inr (empty_body request) |}.

(** Only the environment fallback, and a backend that answers. *)
Definition world_answering : world :=
  {| context_token := None;
     environ_token := Some "env-token";
     backend := fun request => inr (empty_body request) |}.

(** A caller's token in the context next to the environment fallback, and a
    backend that answers 503. *)
Definition world_unavailable : world :=
  {| context_token := Some "caller-token";
     environ_token := Some "env-token";
     backend := fun request =>
       inr (answer_to request 503 "Service Unavailable" (inr PNone)) |}.

(** An empty context value next to the environment fallback, and an
    outbound call that fails outside the requests family of exceptions:
    the [OSError] that the library raises, unwrapped, when the certificate
    bundle it is configured with does not exist. *)
Definition ca_bundle_error : exn :=
  Exn OtherException
    "Could not find a suitable TLS CA certificate bundle, invalid path: /etc/ssl/certs/missing.pem".

Definition world_failing : world :=
  {| context_token := Some "";
     environ_token := Some "env-token";
     backend := fun _ => inl ca_bundle_error |}.



(** ** Vocabulary of the catalog *)

(** The [properties] and the [required] names of an input schema; a schema
    without the key has none. *)
Definition schema_properties (schema : pyval) : dict :=
  match schema with
  | PDict d =>
      match dict_get "properties" d with
      | Some (PDict p) => p
      | _ => []
      end
  | _ => []
  end.

Definition schema_required (schema : pyval) : list pyval :=
  match schema with
  | PDict d =>
      match dict_get "required" d with
      | Some (PList l) => l
      | _ => []
      end
  | _ => []
  end.

(** An argument mapping fits a schema by its names: every key is one of
    the schema's properties and every required name is a key.  (A JSON
    schema that does not close its properties would accept other keys as
    well; this is the narrower notion.) *)
Definition fits_schema (schema : pyval) (arguments : dict) : bool :=
  forallb (fun kv => dict_has (fst kv) (schema_properties schema)) arguments
  && forallb (fun r => match r with
                       | PStr k => dict_has k arguments
                       | _ => true
                       end) (schema_required schema).

(** A value has the Python type that a JSON type name stands for: [str],
    [int], [int] or [float], [bool]. *)
Definition matches_type (ty : pyval) (v : pyval) : bool :=
  match ty with
  | PStr ty =>
      if (ty =? "string")%string then
        match v with PStr _ => true | _ => false end
      else if (ty =? "integer")%string then
        match v with PInt _ => true | _ => false end
      else if (ty =? "number")%string then
        match v with PInt _ | PFloat _ => true | _ => false end
      else if (ty =? "boolean")%string then
        match v with PBool _ => true | _ => false end
      else true
  | _ => true
  end.

(** Every argument that a property of the schema describes has the type
    the property declares. *)
Definition well_typed (schema : pyval) (arguments : dict) : bool :=
  forallb (fun kv =>
             match dict_get (fst kv) (schema_properties schema) with
             | Some (PDict p) =>
                 match dict_get "type" p with
                 | Some ty => matches_type ty (snd kv)
                 | None => true
                 end
             | _ => true
             end) arguments.

(** The names of a signature, and those among them without a default. *)
Definition parameters (sig : signature) : list string := map fst sig.

Definition required_parameters (sig : signature) : list string :=
  map fst (filter (fun p => match snd p with None => true | Some _ => false end) sig).

(** [a <= b] for a number [a] and an [int] [b], as Python orders them. *)
Definition number_le_int (a : pyval) (b : Z) : bool :=
  match a with
  | PInt n => n <=? b
  | PBool x => (if x then 1 else 0) <=? b
  | PFloat q => Qle_bool q (inject_Z b)
  | _ => false
  end.

(** A value that the interpreter formats into a string without fail:
    [None], a [bool], a [float], a [str], and an [int] of at most 14284
    bits, which keeps it below the interpreter's limit of 4300 decimal
    digits for the conversion.  A list or a dict can be nested beyond the
    depth the interpreter formats, which the embedding, where formatting
    always succeeds, leaves out. *)
Definition plain (v : pyval) : bool :=
  match v with
  | PNone | PBool _ | PFloat _ | PStr _ => true
  | PInt n => Z.log2 (Z.abs n) <? 14284
  | PList _ | PDict _ => false
  end.

(** The text of the [TypeError] that ordering an [int] against [v] raises. *)
Definition not_comparable_message (v : pyval) : string :=
  "'<' not supported between instances of 'int' and '" ++ type_name v ++ "'".

(** A backend that answers every request with the body [v]. *)
Definition world_with_body (v : pyval) : world :=
  {| context_token := Some "caller-token";
     environ_token := Some "env-token";
     backend := fun request => inr (answer_to request 200 "OK" (inr v)) |}.

(** A backend whose body fails to decode with the library's own
    [JSONDecodeError], a [RequestException]. *)
Definition world_undecodable : world :=
  {| context_token := None;
     environ_token := Some "env-token";
     backend := fun request =>
       inr (answer_to request 200 "OK"
              (inl (Exn RequestException
                      "Expecting value: line 1 column 1 (char 0)"))) |}.

(** ** The three operations as one family *)

(** An operation together with the values its parameters are bound to. *)
Inductive invocation : Type :=
| ProductSearch
    (query limit offset sort min_price max_price in_stock category_id : pyval)
| StoreSearch (location radius limit : pyval)
| CategorySearch (query parent_id limit : pyval).

(** Running the body of the operation. *)
Definition perform (py_repr : pyval -> string) (i : invocation) : M pyval :=
  match i with
  | ProductSearch query limit offset sort min_price max_price in_stock
      category_id =>
      walmart_product_search py_repr query limit offset sort min_price
        max_price in_stock category_id
  | StoreSearch location radius limit =>
      walmart_store_search py_repr location radius limit
  | CategorySearch query parent_id limit =>
      walmart_category_search py_repr query parent_id limit
  end.

Definition limit_of (i : invocation) : pyval :=
  match i with
  | ProductSearch _ limit _ _ _ _ _ _ => limit
  | StoreSearch _ _ limit => limit
  | CategorySearch _ _ limit => limit
  end.

(** The second argument of [min] in the body of the operation. *)
Definition cap_of (i : invocation) : Z :=
  match i with
  | ProductSearch _ _ _ _ _ _ _ _ => 50
  | StoreSearch _ _ _ => 20
  | CategorySearch _ _ _ => 50
  end.

(** The parameter that the operation formats into a string outside its
    [try] block: the query in the log line of the product search, the
    location in that of the store search, the parent id in the URL of the
    category search. *)
Definition formatted_of (i : invocation) : pyval :=
  match i with
  | ProductSearch query _ _ _ _ _ _ _ => query
  | StoreSearch location _ _ => location
  | CategorySearch _ parent_id _ => parent_id
  end.

(** The request of the operation, for a token and a clamped limit. *)
Definition request_of (py_repr : pyval -> string) (token lim : pyval)
    (i : invocation) : OutboundRequest :=
  match i with
  | ProductSearch query _ offset sort min_price max_price in_stock category_id =>
      product_search_request token query lim offset sort min_price max_price
        in_stock category_id
  | StoreSearch location radius _ =>
      store_search_request token location radius lim
  | CategorySearch query parent_id _ =>
      category_search_request py_repr token query parent_id lim
  end.

Definition transport_message (py_repr : pyval -> string) (i : invocation) : string :=
  match i with
  | ProductSearch query _ _ _ _ _ _ _ => product_transport_msg py_repr query
  | StoreSearch location _ _ => store_transport_msg py_repr location
  | CategorySearch _ _ _ => category_transport_msg
  end.

Definition unexpected_prefix_of (i : invocation) : string :=
  match i with
  | ProductSearch _ _ _ _ _ _ _ _ => product_unexpected_prefix
  | StoreSearch _ _ _ => store_unexpected_prefix
  | CategorySearch _ _ _ => category_unexpected_prefix
  end.

(** The invocation that a registered name and an argument mapping stand
    for once the arguments are bound: each parameter takes the argument of
    its name, or its default. *)
Definition invocation_of (name : string) (arguments : dict) : option invocation :=
  if (name =? "walmart_product_search")%string then
    let a := bound_values product_search_sig arguments in
    Some (ProductSearch (arg a "query") (arg a "limit") (arg a "offset")
            (arg a "sort") (arg a "min_price") (arg a "max_price")
            (arg a "in_stock") (arg a "category_id"))
  else if (name =? "walmart_store_search")%string then
    let a := bound_values store_search_sig arguments in
    Some (StoreSearch (arg a "location") (arg a "radius") (arg a "limit"))
  else if (name =? "walmart_category_search")%string then
    let a := bound_values category_search_sig arguments in
    Some (CategorySearch (arg a "query") (arg a "parent_id") (arg a "limit"))
  else None.

(** ** Facts about events and dictionaries *)

Lemma calls_app (evs evs' : list event) :
  calls (evs ++ evs') = (calls evs ++ calls evs')%list.
Proof.
  induction evs as [|[l m|r] evs IH]; simpl; [reflexivity|exact IH|].
  now rewrite IH.
Qed.

Lemma dict_get_set_same (d : dict) (k : string) (v : pyval) :
  dict_get k (dict_set d k v) = Some v.
Proof.
  induction d as [|[k' v'] d IH]; simpl.
  - now rewrite String.eqb_refl.
  - destruct (k' =? k)%string eqn:E; simpl; rewrite E; [reflexivity|exact IH].
Qed.

Lemma dict_get_set_other (d : dict) (k k' : string) (v : pyval) :
  k <> k' -> dict_get k' (dict_set d k v) = dict_get k' d.
Proof.
  intros Hne. induction d as [|[k0 v0] d IH]; simpl.
  - destruct (k =? k')%string eqn:E; [|reflexivity].
    apply String.eqb_eq in E. contradiction.
  - destruct (k0 =? k)%string eqn:E; simpl.
    + apply String.eqb_eq in E. subst k0.
      destruct (k =? k')%string eqn:E'; [|reflexivity].
      apply String.eqb_eq in E'. contradiction.
    + now rewrite IH.
Qed.

Lemma dict_get_set_if_same (c : bool) (k : string) (v : pyval) (d : dict) :
  dict_get k d = None ->
  dict_get k (set_if c k v d) = if c then Some v else None.
Proof.
  intros Hd. unfold set_if. destruct c; [apply dict_get_set_same|exact Hd].
Qed.

Lemma dict_get_set_if_other (c : bool) (k k' : string) (v : pyval) (d : dict) :
  k <> k' -> dict_get k' (set_if c k v d) = dict_get k' d.
Proof.
  intros Hne. unfold set_if. destruct c; [now apply dict_get_set_other|reflexivity].
Qed.

(** ** Facts about credential resolution *)

Lemma has_token_true (o : option string) :
  has_token o = true <-> exists t, o = Some t /\ t <> "".
Proof.
  destruct o as [t|]; simpl.
  - rewrite negb_true_iff, String.eqb_neq. split.
    + intros H. now exists t.
    + intros (t' & [= ->] & H). exact H.
  - split; [discriminate|]. now intros (t & H & _).
Qed.

Lemma has_token_false (o : option string) :
  has_token o = false <-> o = None \/ o = Some "".
Proof.
  destruct o as [t|]; simpl.
  - rewrite negb_false_iff, String.eqb_eq. split.
    + intros ->. now right.
    + intros [H|[= ->]]; [discriminate|reflexivity].
  - split; [now left|reflexivity].
Qed.

Lemma resolve_credential_nonempty (w : world) (t : string) :
  resolve_credential w = Some t -> truthy (PStr t) = true.
Proof.
  unfold resolve_credential.
  destruct (has_token (context_token w)) eqn:Hc.
  - intros H. rewrite H in Hc. exact Hc.
  - destruct (has_token (environ_token w)) eqn:He; [|discriminate].
    intros H. rewrite H in He. exact He.
Qed.


(** ** Facts about what an operation settles on *)



Lemma on_exception_unexpected (transport_msg unexpected_prefix : string)
    (e e' : exn) :
  unexpected e = Some e' ->
  e' = e /\
  on_exception transport_msg unexpected_prefix e =
    error_envelope (unexpected_prefix ++ exn_str e).
Proof.
  unfold unexpected, on_exception.
  destruct (is_RequestException (exn_cls e)); [discriminate|].
  intros [= <-]. now split.
Qed.

Lemma settle_unexpected_fault (transport_msg unexpected_prefix : string)
    (r : exn + Response) (e : exn) :
  unexpected_fault r = Some e ->
  settle transport_msg unexpected_prefix r =
    error_envelope (unexpected_prefix ++ exn_str e).
Proof.
  destruct r as [e0|response]; simpl.
  - intros H.
    destruct (on_exception_unexpected transport_msg unexpected_prefix _ _ H)
      as [-> Ho]. exact Ho.
  - destruct (status_error response); [discriminate|].
    destruct (body_json response) as [e0|v]; [|discriminate].
    intros H.
    destruct (on_exception_unexpected transport_msg unexpected_prefix _ _ H)
      as [-> Ho]. exact Ho.
Qed.

Lemma min_with_int_PInt (n b : Z) :
  min_with_int (PInt n) b = Some (PInt (Z.min n b)).
Proof.
  simpl. destruct (Z.ltb_spec b n); do 2 f_equal; lia.
Qed.

Lemma min_with_int_number (v : pyval) (b : Z) :
  is_number v = true <-> exists lim, min_with_int v b = Some lim.
Proof.
  destruct v; simpl; split; try discriminate; try (intros [? ?]; discriminate);
    try reflexivity; intros _; eexists; reflexivity.
Qed.

(** ** Facts about binding keyword arguments *)

Lemma unexpected_keyword_none (sig : signature) (arguments : dict) :
  existsb (fun kv => negb (is_param sig (fst kv))) arguments = false ->
  unexpected_keyword sig arguments = None.
Proof.
  unfold unexpected_keyword.
  induction arguments as [|[k v] rest IH]; simpl; [reflexivity|].
  destruct (is_param sig k); simpl; [exact IH|discriminate].
Qed.

Lemma unexpected_keyword_some (sig : signature) (arguments : dict) :
  existsb (fun kv => negb (is_param sig (fst kv))) arguments = true ->
  exists k, unexpected_keyword sig arguments = Some k
            /\ is_param sig k = false /\ dict_has k arguments = true.
Proof.
  unfold unexpected_keyword.
  induction arguments as [|[k v] rest IH]; simpl; [discriminate|].
  destruct (is_param sig k) eqn:Hk; simpl.
  - intros H. destruct (IH H) as (k' & Hf & Hp & Hd).
    exists k'. repeat split; try assumption.
    unfold dict_has in *. simpl. now destruct (k =? k')%string.
  - intros _. exists k. repeat split; [assumption|].
    unfold dict_has. simpl. now rewrite String.eqb_refl.
Qed.

Lemma missing_required_nil (sig : signature) (arguments : dict) :
  existsb (fun p => match snd p with
                    | None => negb (dict_has (fst p) arguments)
                    | Some _ => false
                    end) sig = false <->
  missing_required sig arguments = [].
Proof.
  unfold missing_required.
  induction sig as [|[name [d|]] rest IH]; simpl; [tauto|exact IH|].
  destruct (dict_has name arguments); simpl; [exact IH|].
  split; discriminate.
Qed.

Lemma bind_kwargs_fits (fname : string) (sig : signature) (arguments : dict)
    (w : world) :
  mismatch sig arguments = false ->
  bind_kwargs fname sig arguments w = (Returns (bound_values sig arguments), []).
Proof.
  unfold mismatch. rewrite orb_false_iff. intros [Hu Hm].
  unfold bind_kwargs. rewrite (unexpected_keyword_none _ _ Hu).
  apply missing_required_nil in Hm. now rewrite Hm.
Qed.

Lemma bind_kwargs_mismatch (fname : string) (sig : signature) (arguments : dict)
    (w : world) :
  mismatch sig arguments = true ->
  exists msg,
    bind_kwargs fname sig arguments w = (Raises (Exn TypeError msg), []).
Proof.
  unfold mismatch, bind_kwargs. intros H.
  destruct (existsb _ arguments) eqn:Hu.
  - destruct (unexpected_keyword_some _ _ Hu) as (k & -> & _). eexists. reflexivity.
  - rewrite (unexpected_keyword_none _ _ Hu). simpl in H.
    destruct (missing_required sig arguments) as [|name names] eqn:Hm.
    + apply missing_required_nil in Hm. congruence.
    + eexists. reflexivity.
Qed.

Section GatewayFacts.

Variable py_repr : pyval -> string.
Variable json_dumps : pyval -> string.

Lemma get_auth_token_run (w : world) :
  fst (get_auth_token py_repr w) =
    match resolve_credential w with
    | Some t => Returns (PStr t)
    | None => Raises (Exn RuntimeError no_token_message)
    end
  /\ calls (snd (get_auth_token py_repr w)) = [].
Proof.
  destruct w as [ctx env be].
  unfold resolve_credential, get_auth_token, try_except, bind,
    auth_token_context_get, os_getenv_WALMART_API_KEY, ask, ret, log, emit; simpl.
  destruct ctx as [t|]; simpl.
  - destruct (t =? "")%string eqn:Et; simpl.
    + destruct env as [t'|]; simpl; [|now split].
      destruct (t' =? "")%string; simpl; now split.
    + now split.
  - destruct env as [t'|]; simpl; [|now split].
    destruct (t' =? "")%string; simpl; now split.
Qed.

Lemma get_walmart_client_run (w : world) :
  fst (get_walmart_client py_repr w) = Returns (client_token w)
  /\ calls (snd (get_walmart_client py_repr w)) = [].
Proof.
  destruct (get_auth_token_run w) as [Hr Hc].
  unfold get_walmart_client, try_except, bind, client_token.
  destruct (get_auth_token py_repr w) as [r evs]; simpl in *.
  subst r. destruct (resolve_credential w) as [t|]; simpl.
  - rewrite app_nil_r. now split.
  - rewrite calls_app, Hc. now split.
Qed.


Lemma get_walmart_client_returns (w : world) :
  exists evs,
    get_walmart_client py_repr w = (Returns (client_token w), evs)
    /\ calls evs = [].
Proof.
  destruct (get_walmart_client_run w) as [Hr Hc].
  destruct (get_walmart_client py_repr w) as [r evs]; simpl in *.
  exists evs. now subst r.
Qed.

(** Running an operation: unfold its body down to the client helper,
    replace the helper's run by what [get_walmart_client_returns] says, and
    evaluate the rest of the monadic plumbing. *)
Ltac unfold_plumbing :=
  cbv beta iota zeta delta [bind ret log emit try_except requests_get ask
    raise_for_status json settle on_exception select_handler raise reraise
    missing_token fst snd negb].

Ltac run_client w :=
  let evs := fresh "evs" in
  let Hr := fresh "Hr" in
  let Hc := fresh "Hc" in
  destruct (get_walmart_client_returns w) as (evs & Hr & Hc);
  cbv beta iota zeta delta [bind fst snd];
  rewrite Hr; unfold client_token.

Ltac settle_calls Hc :=
  simpl; rewrite ?calls_app, ?Hc; simpl; try (split; reflexivity); try reflexivity.

Ltac by_backend_outcome w Hc :=
  destruct (backend w _) as [[[] ?]|?response];
  [settle_calls Hc ..
  | destruct (status_error response) as [?|];
    [settle_calls Hc
    | destruct (body_json response) as [[[] ?]|?]; settle_calls Hc]].

(** *** Without a token *)

Lemma client_token_none (w : world) :
  has_token (context_token w) = false ->
  has_token (environ_token w) = false ->
  resolve_credential w = None.
Proof.
  intros Hc He. unfold resolve_credential. now rewrite Hc, He.
Qed.

Lemma product_search_without_token (w : world)
    (query limit offset sort min_price max_price in_stock category_id : pyval) :
  resolve_credential w = None ->
  let run :=
    walmart_product_search py_repr query limit offset sort min_price max_price
      in_stock category_id w in
  fst run = Returns (error_envelope "Missing Walmart API token")
  /\ calls (snd run) = [].
Proof.
  intros Hn run. subst run. unfold walmart_product_search.
  run_client w. rewrite Hn. unfold_plumbing. settle_calls Hc.
Qed.

Lemma store_search_without_token (w : world) (location radius limit : pyval) :
  resolve_credential w = None ->
  let run := walmart_store_search py_repr location radius limit w in
  fst run = Returns (error_envelope "Missing Walmart API token")
  /\ calls (snd run) = [].
Proof.
  intros Hn run. subst run. unfold walmart_store_search.
  run_client w. rewrite Hn. unfold_plumbing. settle_calls Hc.
Qed.

Lemma category_search_without_token (w : world) (query parent_id limit : pyval) :
  resolve_credential w = None ->
  let run := walmart_category_search py_repr query parent_id limit w in
  fst run = Returns (error_envelope "Missing Walmart API token")
  /\ calls (snd run) = [].
Proof.
  intros Hn run. subst run. unfold walmart_category_search.
  run_client w. rewrite Hn. unfold_plumbing. settle_calls Hc.
Qed.

(** *** With a token and a limit that can be clamped *)

Lemma product_search_outcome (w : world) (t : string)
    (query limit offset sort min_price max_price in_stock category_id lim : pyval) :
  resolve_credential w = Some t ->
  min_with_int limit 50 = Some lim ->
  let request :=
    product_search_request (PStr t) query lim offset sort min_price max_price
      in_stock category_id in
  let run :=
    walmart_product_search py_repr query limit offset sort min_price max_price
      in_stock category_id w in
  fst run =
    Returns (settle (product_transport_msg py_repr query)
               product_unexpected_prefix (backend w request))
  /\ calls (snd run) = [request].
Proof.
  intros Ht Hl request run. subst run request.
  pose proof (resolve_credential_nonempty w t Ht) as Hne.
  unfold walmart_product_search, py_min, product_search_request,
    product_transport_msg, product_unexpected_prefix.
  run_client w. rewrite Ht, Hne, Hl. unfold_plumbing.
  by_backend_outcome w Hc.
Qed.

Lemma store_search_outcome (w : world) (t : string)
    (location radius limit lim : pyval) :
  resolve_credential w = Some t ->
  min_with_int limit 20 = Some lim ->
  let request := store_search_request (PStr t) location radius lim in
  let run := walmart_store_search py_repr location radius limit w in
  fst run =
    Returns (settle (store_transport_msg py_repr location)
               store_unexpected_prefix (backend w request))
  /\ calls (snd run) = [request].
Proof.
  intros Ht Hl request run. subst run request.
  pose proof (resolve_credential_nonempty w t Ht) as Hne.
  unfold walmart_store_search, py_min, store_search_request,
    store_transport_msg, store_unexpected_prefix.
  run_client w. rewrite Ht, Hne, Hl. unfold_plumbing.
  by_backend_outcome w Hc.
Qed.

Lemma category_search_outcome (w : world) (t : string)
    (query parent_id limit lim : pyval) :
  resolve_credential w = Some t ->
  min_with_int limit 50 = Some lim ->
  let request := category_search_request py_repr (PStr t) query parent_id lim in
  let run := walmart_category_search py_repr query parent_id limit w in
  fst run =
    Returns (settle category_transport_msg category_unexpected_prefix
               (backend w request))
  /\ calls (snd run) = [request].
Proof.
  intros Ht Hl request run. subst run request.
  pose proof (resolve_credential_nonempty w t Ht) as Hne.
  unfold walmart_category_search, py_min, category_search_request,
    category_transport_msg, category_unexpected_prefix.
  run_client w. rewrite Ht, Hne, Hl. unfold_plumbing.
  by_backend_outcome w Hc.
Qed.


(** *** The log of an unexpected fault *)

Ltac by_unexpected_fault Hf :=
  unfold unexpected_fault, unexpected in Hf;
  destruct (backend _ _) as [[[] ?]|?response];
  [|idtac ..
   |destruct (status_error response); [discriminate Hf|];
    destruct (body_json response) as [[[] ?]|?]];
  simpl in Hf; try discriminate Hf;
  injection Hf as <-;
  simpl; apply in_or_app; right; simpl; tauto.

Lemma product_search_logs_unexpected (w : world) (t : string)
    (query limit offset sort min_price max_price in_stock category_id lim : pyval)
    (e : exn) :
  resolve_credential w = Some t ->
  min_with_int limit 50 = Some lim ->
  unexpected_fault
    (backend w (product_search_request (PStr t) query lim offset sort
                   min_price max_price in_stock category_id)) = Some e ->
  In (Logged ERROR (product_unexpected_prefix ++ exn_str e))
    (snd (walmart_product_search py_repr query limit offset sort min_price
            max_price in_stock category_id w)).
Proof.
  intros Ht Hl Hf.
  pose proof (resolve_credential_nonempty w t Ht) as Hne.
  unfold walmart_product_search, py_min, product_search_request,
    product_unexpected_prefix in *.
  run_client w. rewrite Ht, Hne, Hl. unfold_plumbing.
  by_unexpected_fault Hf.
Qed.

Lemma store_search_logs_unexpected (w : world) (t : string)
    (location radius limit lim : pyval) (e : exn) :
  resolve_credential w = Some t ->
  min_with_int limit 20 = Some lim ->
  unexpected_fault
    (backend w (store_search_request (PStr t) location radius lim)) = Some e ->
  In (Logged ERROR (store_unexpected_prefix ++ exn_str e))
    (snd (walmart_store_search py_repr location radius limit w)).
Proof.
  intros Ht Hl Hf.
  pose proof (resolve_credential_nonempty w t Ht) as Hne.
  unfold walmart_store_search, py_min, store_search_request,
    store_unexpected_prefix in *.
  run_client w. rewrite Ht, Hne, Hl. unfold_plumbing.
  by_unexpected_fault Hf.
Qed.

Lemma category_search_logs_unexpected (w : world) (t : string)
    (query parent_id limit lim : pyval) (e : exn) :
  resolve_credential w = Some t ->
  min_with_int limit 50 = Some lim ->
  unexpected_fault
    (backend w (category_search_request py_repr (PStr t) query parent_id lim))
    = Some e ->
  In (Logged ERROR (category_unexpected_prefix ++ exn_str e))
    (snd (walmart_category_search py_repr query parent_id limit w)).
Proof.
  intros Ht Hl Hf.
  pose proof (resolve_credential_nonempty w t Ht) as Hne.
  unfold walmart_category_search, py_min, category_search_request,
    category_unexpected_prefix in *.
  run_client w. rewrite Ht, Hne, Hl. unfold_plumbing.
  by_unexpected_fault Hf.
Qed.

(** *** The dispatcher *)

Lemma call_tool_run (name : string) (arguments : dict) (w : world) :
  let intro :=
    Logged INFO ("Calling tool: " ++ name ++ " with arguments: "
                   ++ py_str py_repr (PDict arguments)) in
  call_tool py_repr json_dumps name arguments w =
    match dispatch py_repr name arguments w with
    | (Returns result, evs) =>
        (Returns [{| type := "text"; text := json_dumps result |}],
         intro :: evs)
    | (Raises e, evs) =>
        (Returns [{| type := "text";
                     text := json_dumps (error_envelope (exn_str e)) |}],
         intro :: evs
           ++ [Logged ERROR ("Error calling tool " ++ name ++ ": " ++ exn_str e)])
    end.
Proof.
  unfold call_tool. unfold_plumbing.
  destruct (dispatch py_repr name arguments w) as [[result|e] evs]; simpl.
  - now rewrite app_nil_r.
  - reflexivity.
Qed.

Lemma dispatch_registered (name : string) (sig : signature) (arguments : dict)
    (w : world) :
  signature_of name = Some sig ->
  mismatch sig arguments = true ->
  exists msg,
    bind_kwargs name sig arguments w = (Raises (Exn TypeError msg), [])
    /\ dispatch py_repr name arguments w = (Raises (Exn TypeError msg), []).
Proof.
  unfold signature_of, dispatch; simpl. intros Hs Hm.
  destruct (name =? "walmart_product_search")%string eqn:E1;
    [|destruct (name =? "walmart_store_search")%string eqn:E2;
      [|destruct (name =? "walmart_category_search")%string eqn:E3;
        [|discriminate]]];
    injection Hs as <-;
    match goal with
    | E : (name =? _)%string = true |- _ => apply String.eqb_eq in E; subst name
    end;
    match goal with
    | |- context [bind_kwargs ?f _ _ _] =>
        destruct (bind_kwargs_mismatch f _ arguments w Hm) as [msg Hb]
    end;
    exists msg; (split; [exact Hb|]);
    unfold call_product_search, call_store_search, call_category_search, bind;
    now rewrite Hb.
Qed.

Lemma dispatch_unknown (name : string) (arguments : dict) (w : world) :
  signature_of name = None ->
  dispatch py_repr name arguments w =
    (Raises (Exn ValueError ("Unknown tool: " ++ name)), []).
Proof.
  unfold signature_of, dispatch; simpl.
  destruct (name =? "walmart_product_search")%string; [discriminate|].
  destruct (name =? "walmart_store_search")%string; [discriminate|].
  destruct (name =? "walmart_category_search")%string; [discriminate|].
  reflexivity.
Qed.


Lemma dispatch_fits_without_token (name : string) (sig : signature)
    (arguments : dict) (w : world) :
  signature_of name = Some sig ->
  mismatch sig arguments = false ->
  resolve_credential w = None ->
  exists evs,
    dispatch py_repr name arguments w =
      (Returns (error_envelope "Missing Walmart API token"), evs)
    /\ calls evs = [].
Proof.
  unfold signature_of, dispatch; simpl. intros Hs Hm Hn.
  destruct (name =? "walmart_product_search")%string eqn:E1;
    [|destruct (name =? "walmart_store_search")%string eqn:E2;
      [|destruct (name =? "walmart_category_search")%string eqn:E3;
        [|discriminate]]];
    injection Hs as <-;
    unfold call_product_search, call_store_search, call_category_search, bind;
    rewrite (bind_kwargs_fits _ _ arguments w Hm);
    match goal with
    | |- context [walmart_product_search ?r ?a ?b ?c ?d ?e ?f ?g ?h w] =>
        destruct (product_search_without_token w a b c d e f g h Hn) as [Hr Hc];
        destruct (walmart_product_search r a b c d e f g h w) as [res evs]
    | |- context [walmart_store_search ?r ?a ?b ?c w] =>
        destruct (store_search_without_token w a b c Hn) as [Hr Hc];
        destruct (walmart_store_search r a b c w) as [res evs]
    | |- context [walmart_category_search ?r ?a ?b ?c w] =>
        destruct (category_search_without_token w a b c Hn) as [Hr Hc];
        destruct (walmart_category_search r a b c w) as [res evs]
    end;
    simpl in Hr, Hc; subst res; exists evs; now split.
Qed.

(** Through the dispatcher: a registered operation whose arguments bind
    answers with the missing-token envelope when no credential resolves. *)
Lemma call_tool_without_token (name : string) (sig : signature)
    (arguments : dict) (w : world) :
  signature_of name = Some sig ->
  mismatch sig arguments = false ->
  resolve_credential w = None ->
  let run := call_tool py_repr json_dumps name arguments w in
  fst run =
    Returns [{| type := "text";
                text := json_dumps (error_envelope "Missing Walmart API token") |}]
  /\ calls (snd run) = [].
Proof.
  intros Hs Hm Hn run. subst run.
  destruct (dispatch_fits_without_token name sig arguments w Hs Hm Hn)
    as (evs & Hd & Hc).
  rewrite call_tool_run, Hd. simpl. now split.
Qed.

Lemma call_tool_never_raises (name : string) (arguments : dict) (w : world) :
  exists content, fst (call_tool py_repr json_dumps name arguments w) = Returns content.
Proof.
  rewrite call_tool_run.
  destruct (dispatch py_repr name arguments w) as [[result|e] evs];
    eexists; reflexivity.
Qed.

Lemma product_search_params_limit
    (query lim offset sort min_price max_price in_stock category_id : pyval) :
  dict_get "limit"
    (product_search_params query lim offset sort min_price max_price in_stock
       category_id) = Some lim.
Proof.
  unfold product_search_params.
  now rewrite !dict_get_set_if_other by discriminate.
Qed.

(** ** The properties of the gateway *)

(** C1.  When no credential is resolvable (the context variable is unset
    or empty and the environment gives nothing or an empty string), each of
    the three operations returns [{"error": "Missing Walmart API token"}]
    and makes no outbound call, whatever its parameters are. *)
Theorem missing_credential_short_circuits (w : world) :
  has_token (context_token w) = false ->
  has_token (environ_token w) = false ->
  (forall query limit offset sort min_price max_price in_stock category_id,
     let run :=
       walmart_product_search py_repr query limit offset sort min_price
         max_price in_stock category_id w in
     fst run = Returns (error_envelope "Missing Walmart API token")
     /\ calls (snd run) = [])
  /\ (forall location radius limit,
        let run := walmart_store_search py_repr location radius limit w in
        fst run = Returns (error_envelope "Missing Walmart API token")
        /\ calls (snd run) = [])
  /\ (forall query parent_id limit,
        let run := walmart_category_search py_repr query parent_id limit w in
        fst run = Returns (error_envelope "Missing Walmart API token")
        /\ calls (snd run) = []).
Proof.
  intros Hc He. pose proof (client_token_none w Hc He) as Hn.
  repeat split; intros.
  - now apply product_search_without_token.
  - now apply product_search_without_token.
  - now apply store_search_without_token.
  - now apply store_search_without_token.
  - now apply category_search_without_token.
  - now apply category_search_without_token.
Qed.

Lemma signature_of_none (name : string) :
  signature_of name = None <->
  name <> "walmart_product_search"
  /\ name <> "walmart_store_search"
  /\ name <> "walmart_category_search".
Proof.
  unfold signature_of; simpl. rewrite <- !String.eqb_neq.
  destruct (name =? "walmart_product_search")%string;
    destruct (name =? "walmart_store_search")%string;
    destruct (name =? "walmart_category_search")%string;
    intuition discriminate.
Qed.

(** C2.  An invocation whose name is none of the three registered names is
    answered with [{"error": "Unknown tool: <name>"}], the name filled in,
    and makes no outbound call. *)
Theorem unknown_tool_is_reported (name : string) (arguments : dict) (w : world) :
  signature_of name = None ->
  let run := call_tool py_repr json_dumps name arguments w in
  fst run =
    Returns [{| type := "text";
                text := json_dumps (error_envelope ("Unknown tool: " ++ name)) |}]
  /\ calls (snd run) = [].
Proof.
  intros Hs run. subst run.
  rewrite call_tool_run, (dispatch_unknown name arguments w Hs).
  now split.
Qed.

(** C3.  With a credential at hand, an integer [limit] is never rejected:
    each operation makes its one outbound call, and the query of that call
    carries [min(limit, 50)] for the product search, [min(limit, 20)] for
    the store search and [min(limit, 50)] for the category search. *)
Theorem limit_is_clamped (w : world) (t : string) (n : Z) :
  resolve_credential w = Some t ->
  (forall query offset sort min_price max_price in_stock category_id,
     exists request,
       calls (snd (walmart_product_search py_repr query (PInt n) offset sort
                     min_price max_price in_stock category_id w)) = [request]
       /\ dict_get "limit" (params request) = Some (PInt (Z.min n 50)))
  /\ (forall location radius,
        exists request,
          calls (snd (walmart_store_search py_repr location radius (PInt n) w))
            = [request]
          /\ dict_get "limit" (params request) = Some (PInt (Z.min n 20)))
  /\ (forall query parent_id,
        exists request,
          calls (snd (walmart_category_search py_repr query parent_id (PInt n) w))
            = [request]
          /\ dict_get "limit" (params request) = Some (PInt (Z.min n 50))).
Proof.
  intros Ht. repeat split; intros.
  - destruct (product_search_outcome w t query (PInt n) offset sort min_price
                max_price in_stock category_id _ Ht (min_with_int_PInt n 50))
      as [_ Hcalls].
    eexists. split; [exact Hcalls|]. apply product_search_params_limit.
  - destruct (store_search_outcome w t location radius (PInt n) _ Ht
                (min_with_int_PInt n 20)) as [_ Hcalls].
    eexists. split; [exact Hcalls|reflexivity].
  - destruct (category_search_outcome w t query parent_id (PInt n) _ Ht
                (min_with_int_PInt n 50)) as [_ Hcalls].
    eexists. split; [exact Hcalls|]. simpl.
    now rewrite dict_get_set_if_other by discriminate.
Qed.

(** C4, as the code has it.  In a product search that reaches the backend,
    [sort] is in the outbound query, verbatim, exactly when it is truthy
    and differs from ["relevance"]; [minPrice], [maxPrice] and [inStock]
    exactly when the argument is not [None]; and [categoryId] exactly when
    [category_id] is truthy, so an empty string is left out like [None]. *)
Theorem optional_filters_sent_when_set (w : world) (t : string)
    (query limit offset sort min_price max_price in_stock category_id lim : pyval) :
  resolve_credential w = Some t ->
  min_with_int limit 50 = Some lim ->
  exists request,
    calls (snd (walmart_product_search py_repr query limit offset sort min_price
                  max_price in_stock category_id w)) = [request]
    /\ dict_get "sort" (params request) =
         (if truthy sort && ne_str sort "relevance" then Some sort else None)
    /\ dict_get "minPrice" (params request) =
         (if is_not_None min_price then Some min_price else None)
    /\ dict_get "maxPrice" (params request) =
         (if is_not_None max_price then Some max_price else None)
    /\ dict_get "inStock" (params request) =
         (if is_not_None in_stock then Some in_stock else None)
    /\ dict_get "categoryId" (params request) =
         (if truthy category_id then Some category_id else None).
Proof.
  intros Ht Hl.
  destruct (product_search_outcome w t query limit offset sort min_price
              max_price in_stock category_id lim Ht Hl) as [_ Hcalls].
  eexists. split; [exact Hcalls|].
  unfold product_search_request, product_search_params; simpl params.
  repeat split.
  - rewrite !dict_get_set_if_other by discriminate.
    now apply dict_get_set_if_same.
  - rewrite !dict_get_set_if_other by discriminate.
    apply dict_get_set_if_same.
    now rewrite !dict_get_set_if_other by discriminate.
  - rewrite !dict_get_set_if_other by discriminate.
    apply dict_get_set_if_same.
    now rewrite !dict_get_set_if_other by discriminate.
  - rewrite !dict_get_set_if_other by discriminate.
    apply dict_get_set_if_same.
    now rewrite !dict_get_set_if_other by discriminate.
  - apply dict_get_set_if_same.
    now rewrite !dict_get_set_if_other by discriminate.
Qed.



(** C6.  Credential resolution follows the order of the specification: the
    context token when it is set and non-empty, otherwise the environment
    default when that is non-empty; it fails, with the missing-credential
    error, exactly when the context variable is unset or empty and the
    environment variable is absent or empty.  It makes no outbound call. *)
Theorem credential_resolution_order (w : world) :
  fst (get_auth_token py_repr w) =
    match resolve_credential w with
    | Some t => Returns (PStr t)
    | None => Raises (Exn RuntimeError no_token_message)
    end
  /\ (forall t, context_token w = Some t -> t <> "" ->
        fst (get_auth_token py_repr w) = Returns (PStr t))
  /\ (forall t, context_token w = None \/ context_token w = Some "" ->
        environ_token w = Some t -> t <> "" ->
        fst (get_auth_token py_repr w) = Returns (PStr t))
  /\ ((exists e, fst (get_auth_token py_repr w) = Raises e) <->
      (context_token w = None \/ context_token w = Some "")
      /\ (environ_token w = None \/ environ_token w = Some ""))
  /\ calls (snd (get_auth_token py_repr w)) = [].
Proof.
  destruct (get_auth_token_run w) as [Hr Hc].
  split; [exact Hr|]. rewrite Hr. unfold resolve_credential.
  split; [|split; [|split; [split; [intros H; split; revert H|]|]]].
  - intros t Hctx Hne.
    assert (H : has_token (context_token w) = true)
      by (apply has_token_true; now exists t).
    now rewrite H, Hctx.
  - intros t Hctx Henv Hne.
    apply has_token_false in Hctx.
    assert (H : has_token (environ_token w) = true)
      by (apply has_token_true; now exists t).
    now rewrite Hctx, H, Henv.
  - intros [e He].
    destruct (has_token (context_token w)) eqn:Hctx.
    + apply has_token_true in Hctx. destruct Hctx as (t & Ht & _).
      rewrite Ht in He. discriminate.
    + now apply has_token_false.
  - intros [e He].
    destruct (has_token (context_token w)) eqn:Hctx.
    + apply has_token_true in Hctx. destruct Hctx as (t & Ht & _).
      rewrite Ht in He. discriminate.
    + destruct (has_token (environ_token w)) eqn:Henv.
      * apply has_token_true in Henv. destruct Henv as (t & Ht & _).
        rewrite Ht in He. discriminate.
      * now apply has_token_false.
  - intros [Hctx Henv].
    apply has_token_false in Hctx, Henv. rewrite Hctx, Henv.
    eexists. reflexivity.
  - exact Hc.
Qed.

(** C7, as the code has it.  In a category search that reaches the
    backend, the request goes to the categories-by-parent endpoint, with
    [str(parent_id)] as the last segment of the path, exactly when
    [parent_id] is truthy, and to the flat categories endpoint otherwise,
    so also for an empty string; in either case [query] is a query
    parameter, verbatim, exactly when it is truthy. *)
Theorem category_endpoint_selection (w : world) (t : string)
    (query parent_id limit lim : pyval) :
  resolve_credential w = Some t ->
  min_with_int limit 50 = Some lim ->
  exists request,
    calls (snd (walmart_category_search py_repr query parent_id limit w))
      = [request]
    /\ url request =
         (if truthy parent_id
          then "https://api.walmart.com/v3/items/categories/"
                 ++ py_str py_repr parent_id
          else "https://api.walmart.com/v3/items/categories")
    /\ dict_get "query" (params request) =
         (if truthy query then Some query else None).
Proof.
  intros Ht Hl.
  destruct (category_search_outcome w t query parent_id limit lim Ht Hl)
    as [_ Hcalls].
  eexists. split; [exact Hcalls|]. split; [reflexivity|].
  simpl. now apply dict_get_set_if_same.
Qed.

(** C8, as the code has it.  A fault that is neither a transport fault nor
    a missing credential reaches the caller with the text of its exception.
    An exception outside the [RequestException] family that the outbound
    call, or the decoding of its response, raises inside an operation is
    answered by the operation with a failure envelope that carries the text
    of the exception after the words "Unexpected error in Walmart
    <operation> search: ", and the same line goes to the log at level
    ERROR.  An exception that leaves the branch chain of the dispatcher
    (argument binding, a limit that [min] cannot order, an unknown name) is
    answered by the dispatcher with [{"error": str(e)}], the text of the
    exception alone, and logged at level ERROR too, whether or not a
    credential resolves. *)
Theorem unexpected_fault_is_reported_with_its_text (w : world) (e : exn) :
  (forall t query limit offset sort min_price max_price in_stock category_id
          lim,
     resolve_credential w = Some t ->
     min_with_int limit 50 = Some lim ->
     let run :=
       walmart_product_search py_repr query limit offset sort min_price
         max_price in_stock category_id w in
     unexpected_fault
       (backend w (product_search_request (PStr t) query lim offset sort
                      min_price max_price in_stock category_id)) = Some e ->
     fst run =
       Returns (error_envelope
                  ("Unexpected error in Walmart product search: " ++ exn_str e))
     /\ In (Logged ERROR
              ("Unexpected error in Walmart product search: " ++ exn_str e))
          (snd run))
  /\ (forall t location radius limit lim,
        resolve_credential w = Some t ->
        min_with_int limit 20 = Some lim ->
        let run := walmart_store_search py_repr location radius limit w in
        unexpected_fault
          (backend w (store_search_request (PStr t) location radius lim)) = Some e ->
        fst run =
          Returns (error_envelope
                     ("Unexpected error in Walmart store search: " ++ exn_str e))
        /\ In (Logged ERROR
                 ("Unexpected error in Walmart store search: " ++ exn_str e))
             (snd run))
  /\ (forall t query parent_id limit lim,
        resolve_credential w = Some t ->
        min_with_int limit 50 = Some lim ->
        let run := walmart_category_search py_repr query parent_id limit w in
        unexpected_fault
          (backend w (category_search_request py_repr (PStr t) query parent_id
                        lim)) = Some e ->
        fst run =
          Returns (error_envelope
                     ("Unexpected error in Walmart category search: "
                        ++ exn_str e))
        /\ In (Logged ERROR
                 ("Unexpected error in Walmart category search: " ++ exn_str e))
             (snd run))
  /\ (forall name arguments evs,
        dispatch py_repr name arguments w = (Raises e, evs) ->
        let run := call_tool py_repr json_dumps name arguments w in
        fst run =
          Returns [{| type := "text";
                      text := json_dumps (error_envelope (exn_str e)) |}]
        /\ In (Logged ERROR ("Error calling tool " ++ name ++ ": " ++ exn_str e))
             (snd run)).
Proof.
  split; [|split; [|split]].
  - intros t query limit offset sort min_price max_price in_stock category_id
      lim Ht Hl run Hf.
    destruct (product_search_outcome w t query limit offset sort min_price
                max_price in_stock category_id lim Ht Hl) as [Hr _].
    rewrite (settle_unexpected_fault _ _ _ e Hf) in Hr.
    split; [exact Hr|]. now apply (product_search_logs_unexpected w t) with lim.
  - intros t location radius limit lim Ht Hl run Hf.
    destruct (store_search_outcome w t location radius limit lim Ht Hl)
      as [Hr _].
    rewrite (settle_unexpected_fault _ _ _ e Hf) in Hr.
    split; [exact Hr|]. now apply (store_search_logs_unexpected w t) with lim.
  - intros t query parent_id limit lim Ht Hl run Hf.
    destruct (category_search_outcome w t query parent_id limit lim Ht Hl)
      as [Hr _].
    rewrite (settle_unexpected_fault _ _ _ e Hf) in Hr.
    split; [exact Hr|]. now apply (category_search_logs_unexpected w t) with lim.
  - intros name arguments evs Hd run. subst run.
    rewrite call_tool_run, Hd. simpl. split; [reflexivity|].
    right. apply in_or_app. right. now left.
Qed.

(** C10.  An invocation of a registered operation whose argument mapping
    does not fit the operation's parameters (a key that names no parameter,
    or a required parameter left out) is answered with a failure envelope
    that carries the binding error, and makes no outbound call.  This holds
    in every world, so also where no credential is resolvable: binding
    fails before the operation's body, and with it the credential lookup,
    runs. *)
Theorem malformed_arguments_are_reported (name : string) (sig : signature)
    (arguments : dict) (w : world) :
  signature_of name = Some sig ->
  mismatch sig arguments = true ->
  exists msg,
    bind_kwargs name sig arguments w = (Raises (Exn TypeError msg), [])
    /\ fst (call_tool py_repr json_dumps name arguments w) =
         Returns [{| type := "text"; text := json_dumps (error_envelope msg) |}]
    /\ calls (snd (call_tool py_repr json_dumps name arguments w)) = [].
Proof.
  intros Hs Hm.
  destruct (dispatch_registered name sig arguments w Hs Hm) as (msg & Hb & Hd).
  exists msg. split; [exact Hb|].
  rewrite call_tool_run, Hd. now split.
Qed.

End GatewayFacts.

(** ** The properties at work on sample invocations *)

Lemma missing_credential_short_circuits_witness :
  has_token (context_token world_with_empty_context) = false
  /\ has_token (environ_token world_with_empty_context) = false
  /\ (let run :=
        walmart_product_search sample_repr (PStr "tv") (PInt 10) (PInt 0)
          (PStr "relevance") PNone PNone PNone PNone world_with_empty_context in
      fst run = Returns (error_envelope "Missing Walmart API token")
      /\ calls (snd run) = []).
Proof.
  split; [reflexivity|]. split; [reflexivity|].
  apply (proj1 (missing_credential_short_circuits sample_repr
                  world_with_empty_context eq_refl eq_refl)).
Defined.

Lemma unknown_tool_is_reported_witness :
  signature_of "walmart_price_check" = None
  /\ (let run :=
        call_tool sample_repr sample_dumps "walmart_price_check"
          [("query", PStr "tv")] world_answering in
      fst run =
        Returns [{| type := "text";
                    text := sample_dumps
                              (error_envelope "Unknown tool: walmart_price_check") |}]
      /\ calls (snd run) = []).
Proof.
  split; [reflexivity|].
  apply (unknown_tool_is_reported sample_repr sample_dumps "walmart_price_check"
           [("query", PStr "tv")] world_answering eq_refl).
Defined.

(** A product search and a store search with [limit=999] send 50 and 20. *)
Lemma limit_is_clamped_witness :
  resolve_credential world_answering = Some "env-token"
  /\ (exists request,
        calls (snd (walmart_product_search sample_repr (PStr "tv") (PInt 999)
                      (PInt 0) (PStr "relevance") PNone PNone PNone PNone
                      world_answering)) = [request]
        /\ dict_get "limit" (params request) = Some (PInt 50))
  /\ (exists request,
        calls (snd (walmart_store_search sample_repr (PStr "94105") (PInt 25)
                      (PInt 999) world_answering)) = [request]
        /\ dict_get "limit" (params request) = Some (PInt 20)).
Proof.
  split; [reflexivity|].
  pose proof (limit_is_clamped sample_repr world_answering "env-token" 999
                eq_refl) as H.
  split.
  - apply (proj1 H).
  - apply (proj1 (proj2 H)).
Defined.

Lemma optional_filters_sent_when_set_witness :
  resolve_credential world_answering = Some "env-token"
  /\ min_with_int (PInt 10) 50 = Some (PInt 10)
  /\ exists request,
       calls (snd (walmart_product_search sample_repr (PStr "tv") (PInt 10)
                     (PInt 0) (PStr "price_low") (PFloat (5 # 1)) PNone
                     (PBool false) (PStr "") world_answering)) = [request]
       /\ dict_get "sort" (params request) = Some (PStr "price_low")
       /\ dict_get "minPrice" (params request) = Some (PFloat (5 # 1))
       /\ dict_get "maxPrice" (params request) = None
       /\ dict_get "inStock" (params request) = Some (PBool false)
       /\ dict_get "categoryId" (params request) = None.
Proof.
  split; [reflexivity|]. split; [reflexivity|].
  apply (optional_filters_sent_when_set sample_repr world_answering
           "env-token" (PStr "tv") (PInt 10) (PInt 0) (PStr "price_low")
           (PFloat (5 # 1)) PNone (PBool false) (PStr "") (PInt 10)
           eq_refl eq_refl).
Defined.


Lemma credential_resolution_order_witness :
  fst (get_auth_token sample_repr world_with_empty_context)
    = Raises (Exn RuntimeError no_token_message)
  /\ fst (get_auth_token sample_repr world_unavailable)
       = Returns (PStr "caller-token")
  /\ fst (get_auth_token sample_repr world_failing)
       = Returns (PStr "env-token").
Proof.
  split; [|split].
  - apply (proj1 (credential_resolution_order sample_repr
                    world_with_empty_context)).
  - apply (proj1 (credential_resolution_order sample_repr world_unavailable)).
  - apply (proj1 (credential_resolution_order sample_repr world_failing)).
Defined.

Lemma category_endpoint_selection_witness :
  resolve_credential world_answering = Some "env-token"
  /\ min_with_int (PInt 20) 50 = Some (PInt 20)
  /\ exists request,
       calls (snd (walmart_category_search sample_repr (PStr "toys")
                     (PStr "123") (PInt 20) world_answering)) = [request]
       /\ url request = "https://api.walmart.com/v3/items/categories/123"
       /\ dict_get "query" (params request) = Some (PStr "toys").
Proof.
  split; [reflexivity|]. split; [reflexivity|].
  apply (category_endpoint_selection sample_repr world_answering "env-token"
           (PStr "toys") (PStr "123") (PInt 20) (PInt 20) eq_refl eq_refl).
Defined.

Lemma unexpected_fault_is_reported_with_its_text_witness :
  resolve_credential world_failing = Some "env-token"
  /\ min_with_int (PInt 10) 50 = Some (PInt 10)
  /\ (let run :=
        walmart_product_search sample_repr (PStr "tv") (PInt 10) (PInt 0)
          (PStr "relevance") PNone PNone PNone PNone world_failing in
      unexpected_fault
        (backend world_failing
           (product_search_request (PStr "env-token") (PStr "tv") (PInt 10)
              (PInt 0) (PStr "relevance") PNone PNone PNone PNone))
        = Some ca_bundle_error
      /\ fst run =
           Returns (error_envelope
                      ("Unexpected error in Walmart product search: "
                         ++ exn_str ca_bundle_error))
      /\ In (Logged ERROR
               ("Unexpected error in Walmart product search: "
                  ++ exn_str ca_bundle_error))
           (snd run)).
Proof.
  split; [reflexivity|]. split; [reflexivity|]. split; [reflexivity|].
  apply (proj1 (unexpected_fault_is_reported_with_its_text sample_repr
                  sample_dumps world_failing ca_bundle_error)
           "env-token" (PStr "tv") (PInt 10) (PInt 0) (PStr "relevance") PNone
           PNone PNone PNone (PInt 10) eq_refl eq_refl eq_refl).
Defined.

(** A product search without its query, where no credential is resolvable
    either: the answer is the binding error. *)
Lemma malformed_arguments_are_reported_witness :
  signature_of "walmart_product_search" = Some product_search_sig
  /\ mismatch product_search_sig [("limit", PInt 5)] = true
  /\ exists msg,
       bind_kwargs "walmart_product_search" product_search_sig
         [("limit", PInt 5)] world_without_token
         = (Raises (Exn TypeError msg), [])
       /\ fst (call_tool sample_repr sample_dumps "walmart_product_search"
                 [("limit", PInt 5)] world_without_token) =
            Returns [{| type := "text";
                        text := sample_dumps (error_envelope msg) |}]
       /\ calls (snd (call_tool sample_repr sample_dumps
                        "walmart_product_search" [("limit", PInt 5)]
                        world_without_token)) = [].
Proof.
  split; [reflexivity|]. split; [reflexivity|].
  apply (malformed_arguments_are_reported sample_repr sample_dumps
           "walmart_product_search" product_search_sig [("limit", PInt 5)]
           world_without_token eq_refl eq_refl).
Defined.

(** ** Where the code departs from the wording of the specification *)

(** C4 as worded fails: a product search invoked with [category_id] bound
    to the empty string has the argument supplied, and sends a query
    without [categoryId]. *)
Lemma category_id_empty_is_left_out :
  let arguments := [("query", PStr "tv"); ("category_id", PStr "")] in
  let sent := [("query", PStr "tv"); ("limit", PInt 10); ("offset", PInt 0)] in
  dict_get "category_id" arguments = Some (PStr "")
  /\ calls (snd (call_tool sample_repr sample_dumps "walmart_product_search"
                   arguments world_answering))
     = [Request "https://api.walmart.com/v3/items/search"
          (request_headers (PStr "env-token")) sent]
  /\ ~ included_exactly_when_supplied "categoryId" (PStr "") sent.
Proof.
  split; [reflexivity|]. split; [reflexivity|].
  unfold included_exactly_when_supplied. simpl.
  intros [_ H]. specialize (H eq_refl). discriminate H.
Qed.

(** C7 as worded fails: a category search invoked with [parent_id] and
    [query] bound to empty strings has both supplied, yet it goes to the
    flat endpoint, not to the by-parent endpoint of that id, and sends no
    [query] parameter. *)
Lemma parent_id_empty_goes_to_flat_endpoint :
  let arguments := [("parent_id", PStr ""); ("query", PStr "")] in
  let sent := [("limit", PInt 20)] in
  supplied (PStr "") = true
  /\ calls (snd (call_tool sample_repr sample_dumps "walmart_category_search"
                   arguments world_answering))
     = [Request "https://api.walmart.com/v3/items/categories"
          (request_headers (PStr "env-token")) sent]
  /\ "https://api.walmart.com/v3/items/categories"
     <> "https://api.walmart.com/v3/items/categories/" ++ py_str sample_repr (PStr "")
  /\ ~ included_exactly_when_supplied "query" (PStr "") sent.
Proof.
  split; [reflexivity|]. split; [reflexivity|]. split; [discriminate|].
  unfold included_exactly_when_supplied. simpl.
  intros [_ H]. specialize (H eq_refl). discriminate H.
Qed.

(** C8 as worded fails: the [TypeError] that [min] raises on a limit of
    ["ten"], and the one that binding raises on a product search without
    its query, reach the caller as the whole message of the envelope. *)
Lemma unexpected_fault_text_reaches_caller :
  let compared := [("query", PStr "tv"); ("limit", PStr "ten")] in
  let compared_text :=
    "'<' not supported between instances of 'int' and 'str'" in
  let unbound := [("limit", PInt 5)] in
  let unbound_text :=
    "walmart_product_search() missing 1 required positional argument: 'query'" in
  fst (dispatch sample_repr "walmart_product_search" compared world_answering)
    = Raises (Exn TypeError compared_text)
  /\ fst (call_tool sample_repr sample_dumps "walmart_product_search" compared
            world_answering)
     = Returns [{| type := "text";
                   text := sample_dumps (error_envelope compared_text) |}]
  /\ fst (dispatch sample_repr "walmart_product_search" unbound
            world_without_token)
     = Raises (Exn TypeError unbound_text)
  /\ fst (call_tool sample_repr sample_dumps "walmart_product_search" unbound
            world_without_token)
     = Returns [{| type := "text";
                   text := sample_dumps (error_envelope unbound_text) |}]
  /\ occurs compared_text compared_text = true
  /\ occurs unbound_text unbound_text = true.
Proof.
  repeat split.
Qed.


(** ** The operations in every case *)

Lemma min_with_int_none (v : pyval) (b : Z) :
  min_with_int v b = None <-> is_number v = false.
Proof.
  destruct v; simpl; split; congruence.
Qed.

Lemma min_with_int_le (v : pyval) (b : Z) :
  is_number v = true ->
  min_with_int v b = Some (if number_le_int v b then v else PInt b).
Proof.
  destruct v as [|x|n|q|s|l|d]; simpl; try discriminate; intros _.
  - destruct x; rewrite Z.leb_antisym; now destruct (b <? _).
  - rewrite Z.leb_antisym. now destruct (b <? n).
  - reflexivity.
Qed.


(** ** Facts about schemas and signatures *)

Lemma forallb_dict_get (P : string * pyval -> bool) (arguments : dict)
    (k : string) (v : pyval) :
  forallb P arguments = true ->
  dict_get k arguments = Some v ->
  P (k, v) = true.
Proof.
  induction arguments as [|[k' v'] rest IH]; simpl; [discriminate|].
  rewrite andb_true_iff. intros [Hp Hrest].
  destruct (k' =? k)%string eqn:E.
  - apply String.eqb_eq in E. subst k'. now intros [= <-].
  - now apply IH.
Qed.

Lemma dict_has_keys (k : string) (d : dict) :
  dict_has k d = existsb (fun k' => (k' =? k)%string) (map fst d).
Proof.
  unfold dict_has.
  induction d as [|[k' v] rest IH]; simpl; [reflexivity|].
  now destruct (k' =? k)%string.
Qed.

Lemma is_param_keys (k : string) (sig : signature) :
  is_param sig k = existsb (fun k' => (k' =? k)%string) (parameters sig).
Proof.
  unfold is_param, parameters.
  induction sig as [|p rest IH]; simpl; [reflexivity|]. now rewrite IH.
Qed.

Lemma fits_schema_mismatch (schema : pyval) (sig : signature) :
  map fst (schema_properties schema) = parameters sig ->
  schema_required schema = map PStr (required_parameters sig) ->
  forall arguments,
    fits_schema schema arguments = negb (mismatch sig arguments).
Proof.
  intros Hk Hr arguments.
  assert (Hp : forall k, dict_has k (schema_properties schema) = is_param sig k)
    by (intros k; now rewrite dict_has_keys, is_param_keys, Hk).
  unfold fits_schema, mismatch.
  rewrite negb_orb, Hr. f_equal.
  - induction arguments as [|[k v] rest IH]; simpl; [reflexivity|].
    now rewrite Hp, negb_orb, negb_involutive, IH.
  - unfold required_parameters. clear Hp Hr Hk.
    induction sig as [|[p [d|]] rest IH]; simpl; [reflexivity|exact IH|].
    now rewrite negb_orb, negb_involutive, IH.
Qed.

Section GatewayCoverage.

Variable py_repr : pyval -> string.
Variable json_dumps : pyval -> string.

Ltac enter_operation w :=
  let evs := fresh "evs" in
  let Hr := fresh "Hr" in
  let Hc := fresh "Hc" in
  destruct (get_walmart_client_returns py_repr w) as (evs & Hr & Hc);
  cbv beta iota zeta delta [bind fst snd];
  rewrite Hr; unfold client_token.

Ltac evaluate_plumbing :=
  cbv beta iota zeta delta [bind ret log emit try_except requests_get ask
    raise_for_status json select_handler raise reraise fst snd negb].

(** With a token, a limit that [min] cannot order against the cap makes the
    operation raise before it calls out. *)
Lemma perform_not_comparable (i : invocation) (w : world) (t : string) :
  resolve_credential w = Some t ->
  min_with_int (limit_of i) (cap_of i) = None ->
  fst (perform py_repr i w)
    = Raises (Exn TypeError (not_comparable_message (limit_of i)))
  /\ calls (snd (perform py_repr i w)) = [].
Proof.
  intros Ht Hl.
  pose proof (resolve_credential_nonempty w t Ht) as Hne.
  destruct i; simpl in Hl |- *;
    unfold walmart_product_search, walmart_store_search,
      walmart_category_search, py_min, not_comparable_message;
    enter_operation w; rewrite Ht, Hne, Hl; evaluate_plumbing;
    simpl; rewrite ?app_nil_r, Hc; now split.
Qed.

Lemma perform_without_token (i : invocation) (w : world) :
  resolve_credential w = None ->
  fst (perform py_repr i w) = Returns (error_envelope "Missing Walmart API token")
  /\ calls (snd (perform py_repr i w)) = [].
Proof.
  intros Hn. destruct i; simpl.
  - now apply product_search_without_token.
  - now apply store_search_without_token.
  - now apply category_search_without_token.
Qed.

Lemma perform_outcome (i : invocation) (w : world) (t : string) (lim : pyval) :
  resolve_credential w = Some t ->
  min_with_int (limit_of i) (cap_of i) = Some lim ->
  fst (perform py_repr i w) =
    Returns (settle (transport_message py_repr i) (unexpected_prefix_of i)
               (backend w (request_of py_repr (PStr t) lim i)))
  /\ calls (snd (perform py_repr i w)) = [request_of py_repr (PStr t) lim i].
Proof.
  intros Ht Hl. destruct i; simpl in *.
  - now apply product_search_outcome.
  - now apply store_search_outcome.
  - now apply category_search_outcome.
Qed.

(** The three ways an operation can go, by credential and limit. *)
Lemma perform_cases (i : invocation) (w : world) :
  (resolve_credential w = None
   /\ fst (perform py_repr i w)
        = Returns (error_envelope "Missing Walmart API token")
   /\ calls (snd (perform py_repr i w)) = [])
  \/ (exists t,
        resolve_credential w = Some t
        /\ is_number (limit_of i) = false
        /\ fst (perform py_repr i w)
             = Raises (Exn TypeError (not_comparable_message (limit_of i)))
        /\ calls (snd (perform py_repr i w)) = [])
  \/ (exists t lim,
        resolve_credential w = Some t
        /\ min_with_int (limit_of i) (cap_of i) = Some lim
        /\ fst (perform py_repr i w) =
             Returns (settle (transport_message py_repr i)
                        (unexpected_prefix_of i)
                        (backend w (request_of py_repr (PStr t) lim i)))
        /\ calls (snd (perform py_repr i w))
             = [request_of py_repr (PStr t) lim i]).
Proof.
  destruct (resolve_credential w) as [t|] eqn:Ht.
  - right. destruct (min_with_int (limit_of i) (cap_of i)) as [lim|] eqn:Hl.
    + right. exists t, lim.
      destruct (perform_outcome i w t lim Ht Hl) as [Hr Hc]. now repeat split.
    + left. exists t.
      destruct (perform_not_comparable i w t Ht Hl) as [Hr Hc].
      apply min_with_int_none in Hl. now repeat split.
  - left. destruct (perform_without_token i w Ht) as [Hr Hc]. now repeat split.
Qed.


Lemma perform_returns_if_number (i : invocation) (w : world) :
  is_number (limit_of i) = true ->
  exists result, fst (perform py_repr i w) = Returns result.
Proof.
  intros Hn.
  destruct (perform_cases i w)
    as [(_ & Hr & _)|[(t & _ & Hnot & _)|(t & lim & _ & _ & Hr & _)]].
  - eexists; exact Hr.
  - congruence.
  - eexists; exact Hr.
Qed.

Lemma request_of_limit (token lim : pyval) (i : invocation) :
  dict_get "limit" (params (request_of py_repr token lim i)) = Some lim.
Proof.
  destruct i; simpl.
  - apply product_search_params_limit.
  - reflexivity.
  - now rewrite dict_get_set_if_other by discriminate.
Qed.

(** Binding succeeded: the dispatcher runs the body of the operation on
    the bound values. *)
Lemma dispatch_fits (n : string) (sig : signature) (arguments : dict) (w : world) :
  signature_of n = Some sig ->
  mismatch sig arguments = false ->
  exists i,
    invocation_of n arguments = Some i
    /\ dispatch py_repr n arguments w = perform py_repr i w.
Proof.
  unfold signature_of, dispatch, invocation_of; simpl. intros Hs Hm.
  destruct (n =? "walmart_product_search")%string;
    [|destruct (n =? "walmart_store_search")%string;
      [|destruct (n =? "walmart_category_search")%string; [|discriminate]]];
    injection Hs as <-;
    eexists; (split; [reflexivity|]);
    unfold call_product_search, call_store_search, call_category_search, bind;
    rewrite (bind_kwargs_fits _ _ arguments w Hm); simpl;
    match goal with
    | |- (let (_, _) := ?run in _) = _ => destruct run
    end; reflexivity.
Qed.

(** What the dispatcher does, by name and arguments. *)
Lemma dispatch_cases (n : string) (arguments : dict) (w : world) :
  (signature_of n = None
   /\ dispatch py_repr n arguments w
        = (Raises (Exn ValueError ("Unknown tool: " ++ n)), []))
  \/ (exists sig msg,
        signature_of n = Some sig /\ mismatch sig arguments = true
        /\ dispatch py_repr n arguments w = (Raises (Exn TypeError msg), []))
  \/ (exists sig i,
        signature_of n = Some sig /\ mismatch sig arguments = false
        /\ invocation_of n arguments = Some i
        /\ dispatch py_repr n arguments w = perform py_repr i w).
Proof.
  destruct (signature_of n) as [sig|] eqn:Hs.
  - right. destruct (mismatch sig arguments) eqn:Hm.
    + left. destruct (dispatch_registered py_repr n sig arguments w Hs Hm)
        as (msg & _ & Hd).
      now exists sig, msg.
    + right. destruct (dispatch_fits n sig arguments w Hs Hm) as (i & Hi & Hd).
      now exists sig, i.
  - left. split; [reflexivity|]. now apply dispatch_unknown.
Qed.

(** ** Further properties of the gateway *)

(** X1.  When the backend answers with a status that passes and a body
    that decodes, the operation returns the decoded body itself, whatever
    it is, after its one outbound call. *)
Theorem success_body_is_returned_verbatim (i : invocation) (w : world)
    (t : string) (lim : pyval) (response : Response) (v : pyval) :
  resolve_credential w = Some t ->
  min_with_int (limit_of i) (cap_of i) = Some lim ->
  backend w (request_of py_repr (PStr t) lim i) = inr response ->
  status_error response = None ->
  body_json response = inr v ->
  fst (perform py_repr i w) = Returns v
  /\ calls (snd (perform py_repr i w)) = [request_of py_repr (PStr t) lim i].
Proof.
  intros Ht Hl Hb Hs Hj.
  destruct (perform_outcome i w t lim Ht Hl) as [Hr Hc].
  rewrite Hb in Hr. simpl in Hr. rewrite Hs, Hj in Hr. now split.
Qed.

(** X2.  An operation whose formatted parameter (the query, the location,
    the parent id) is a plain value, one that the interpreter formats
    without fail, lets an exception out in one case only: a credential was
    resolved and the limit is no number, so that [min] cannot order it
    against the cap; the exception is then the [TypeError] of that
    comparison.  Everything else the operation turns into a result. *)
Theorem operation_raises_only_on_incomparable_limit (i : invocation)
    (w : world) (e : exn) :
  plain (formatted_of i) = true ->
  (fst (perform py_repr i w) = Raises e <->
   resolve_credential w <> None
   /\ is_number (limit_of i) = false
   /\ e = Exn TypeError (not_comparable_message (limit_of i))).
Proof.
  intros _.
  destruct (perform_cases i w)
    as [(Hn & Hr & _)|[(t & Ht & Hnot & Hr & _)|(t & lim & Ht & Hl & Hr & _)]];
    rewrite Hr; split.
  - discriminate.
  - intros [H _]. contradiction.
  - intros [= <-]. repeat split; [congruence|assumption].
  - intros (_ & _ & ->). reflexivity.
  - discriminate.
  - intros (_ & Hnot & _).
    apply (min_with_int_none (limit_of i) (cap_of i)) in Hnot. congruence.
Qed.

(** X3.  Whatever the parameters, every outbound request of an operation
    carries, in its access-token header, the token that [get_auth_token]
    returns in the same surroundings, next to the two fixed headers; no
    request goes out when no token resolves. *)
Theorem every_call_carries_the_resolved_token (i : invocation) (w : world)
    (request : OutboundRequest) :
  In request (calls (snd (perform py_repr i w))) ->
  exists t,
    fst (get_auth_token py_repr w) = Returns (PStr t)
    /\ t <> ""
    /\ headers request =
         [("Accept", PStr "application/json");
          ("WM_SEC.ACCESS_TOKEN", PStr t);
          ("WM_QOS.CORRELATION_ID", PStr "walmart-mcp-server")].
Proof.
  destruct (perform_cases i w)
    as [(_ & _ & Hc)|[(t & _ & _ & _ & Hc)|(t & lim & Ht & _ & _ & Hc)]];
    rewrite Hc; simpl; try contradiction.
  intros [<-|[]]. exists t.
  destruct (get_auth_token_run py_repr w) as [Hr _]. rewrite Ht in Hr.
  pose proof (resolve_credential_nonempty w t Ht) as Hne. simpl in Hne.
  apply negb_true_iff, String.eqb_neq in Hne.
  repeat split; [exact Hr|exact Hne|]. now destruct i.
Qed.


Lemma perform_raises_type_error (i : invocation) (w : world) (e : exn) :
  fst (perform py_repr i w) = Raises e -> exn_cls e = TypeError.
Proof.
  destruct (perform_cases i w)
    as [(_ & Hr & _)|[(t & _ & _ & Hr & _)|(t & lim & _ & _ & Hr & _)]];
    rewrite Hr; [discriminate| |discriminate].
  now intros [= <-].
Qed.

Lemma perform_calls_at_most_one (i : invocation) (w : world) :
  (List.length (calls (snd (perform py_repr i w))) <= 1)%nat.
Proof.
  destruct (perform_cases i w)
    as [(_ & _ & Hc)|[(t & _ & _ & _ & Hc)|(t & lim & _ & _ & _ & Hc)]];
    rewrite Hc; simpl; lia.
Qed.

(** X4.  The dispatcher answers every invocation whose argument values
    are plain, ones that the interpreter formats without fail, whatever the
    name, the keys and the surroundings: it does not raise, its answer is
    one text content, and it makes at most one outbound call. *)
Theorem call_tool_always_answers_with_one_text (n : string) (arguments : dict)
    (w : world) :
  forallb (fun kv => plain (snd kv)) arguments = true ->
  exists answer,
    fst (call_tool py_repr json_dumps n arguments w)
      = Returns [{| type := "text"; text := answer |}]
    /\ (List.length (calls (snd (call_tool py_repr json_dumps n arguments w)))
        <= 1)%nat.
Proof.
  intros _. rewrite call_tool_run.
  assert (Hd : (List.length (calls (snd (dispatch py_repr n arguments w))) <= 1)%nat).
  { destruct (dispatch_cases n arguments w)
      as [(_ & Hd)|[(sig & msg & _ & _ & Hd)|(sig & i & _ & _ & _ & Hd)]];
      rewrite Hd; [simpl; lia|simpl; lia|apply perform_calls_at_most_one]. }
  destruct (dispatch py_repr n arguments w) as [[result|e] evs]; simpl in *.
  - eexists. split; [reflexivity|exact Hd].
  - eexists. split; [reflexivity|]. rewrite calls_app, length_app. simpl. lia.
Qed.

Lemma advertised_iff_registered (n : string) :
  In n (map name list_tools) <-> signature_of n <> None.
Proof.
  rewrite signature_of_none. simpl. split.
  - intros [<-|[<-|[<-|[]]]] (H1 & H2 & H3); congruence.
  - intros H.
    destruct (string_dec n "walmart_product_search") as [->|H1]; [tauto|].
    destruct (string_dec n "walmart_store_search") as [->|H2]; [tauto|].
    destruct (string_dec n "walmart_category_search") as [->|H3]; [tauto|].
    exfalso. apply H. now repeat split.
Qed.

(** X5.  The catalog and the dispatcher agree on the names: a name is
    advertised by [list_tools] exactly when the dispatcher never answers it
    with the unknown-tool error, whatever the arguments. *)
Theorem advertised_tools_are_the_dispatched_ones (n : string) :
  In n (map name list_tools) <->
  (forall arguments w,
     fst (dispatch py_repr n arguments w)
       <> Raises (Exn ValueError ("Unknown tool: " ++ n))).
Proof.
  rewrite advertised_iff_registered. split.
  - intros Hreg arguments w.
    destruct (dispatch_cases n arguments w)
      as [(Hs & _)|[(sig & msg & _ & _ & Hd)|(sig & i & _ & _ & _ & Hd)]];
      [contradiction|rewrite Hd; simpl; congruence|].
    rewrite Hd. intros Hr.
    apply perform_raises_type_error in Hr. discriminate Hr.
  - intros H Hs.
    apply (H [] world_without_token).
    now rewrite (dispatch_unknown py_repr n [] world_without_token Hs).
Qed.


Lemma schema_fits_signature (tool : Tool) :
  In tool list_tools ->
  exists sig,
    signature_of (name tool) = Some sig
    /\ map fst (schema_properties (inputSchema tool)) = parameters sig
    /\ schema_required (inputSchema tool) = map PStr (required_parameters sig).
Proof.
  intros [<-|[<-|[<-|[]]]]; eexists; repeat split; reflexivity.
Qed.

(** X6.  For every advertised tool the input schema and the signature of
    the function behind it name the same parameters and the same required
    ones, so an argument mapping binds without error exactly when it uses
    only properties of the schema and supplies the required ones. *)
Theorem schema_fit_is_binding_success (tool : Tool) (arguments : dict)
    (w : world) :
  In tool list_tools ->
  exists sig,
    signature_of (name tool) = Some sig
    /\ map fst (schema_properties (inputSchema tool)) = parameters sig
    /\ (fits_schema (inputSchema tool) arguments = true <->
        bind_kwargs (name tool) sig arguments w
          = (Returns (bound_values sig arguments), []))
    /\ (fits_schema (inputSchema tool) arguments = false <->
        exists msg,
          bind_kwargs (name tool) sig arguments w
            = (Raises (Exn TypeError msg), [])).
Proof.
  intros Hin.
  destruct (schema_fits_signature tool Hin) as (sig & Hs & Hp & Hr).
  exists sig. split; [exact Hs|]. split; [exact Hp|].
  rewrite (fits_schema_mismatch _ sig Hp Hr arguments).
  destruct (mismatch sig arguments) eqn:Hm; simpl.
  - destruct (bind_kwargs_mismatch (name tool) sig arguments w Hm) as [msg Hb].
    rewrite Hb. split; split.
    + discriminate.
    + discriminate.
    + intros _. now exists msg.
    + reflexivity.
  - rewrite (bind_kwargs_fits (name tool) sig arguments w Hm).
    split; split.
    + reflexivity.
    + reflexivity.
    + discriminate.
    + intros [msg Hb]. discriminate Hb.
Qed.

Lemma well_typed_limit (tool : Tool) (sig : signature) (arguments : dict) :
  In tool list_tools ->
  signature_of (name tool) = Some sig ->
  well_typed (inputSchema tool) arguments = true ->
  is_number (arg (bound_values sig arguments) "limit") = true.
Proof.
  intros Hin Hs Hw.
  assert (Hl : forall v, dict_get "limit" arguments = Some v -> is_number v = true).
  { intros v Hv.
    pose proof (forallb_dict_get _ arguments "limit" v Hw Hv) as Hp.
    destruct Hin as [<-|[<-|[<-|[]]]]; simpl in Hp; now destruct v. }
  destruct Hin as [<-|[<-|[<-|[]]]]; injection Hs as <-;
    unfold arg; simpl;
    destruct (dict_get "limit" arguments) as [v|]; auto.
Qed.

(** X7.  Arguments that fit the advertised schema of a tool by their names
    and have the declared types never get a dispatcher-level error: the
    body of the operation runs and its result is what [call_tool] returns,
    as JSON text. *)
Theorem well_typed_arguments_reach_the_operation (tool : Tool)
    (arguments : dict) (w : world) :
  In tool list_tools ->
  fits_schema (inputSchema tool) arguments = true ->
  well_typed (inputSchema tool) arguments = true ->
  exists i result,
    invocation_of (name tool) arguments = Some i
    /\ fst (perform py_repr i w) = Returns result
    /\ fst (call_tool py_repr json_dumps (name tool) arguments w)
         = Returns [{| type := "text"; text := json_dumps result |}].
Proof.
  intros Hin Hf Hw.
  destruct (schema_fits_signature tool Hin) as (sig & Hs & Hp & Hr).
  rewrite (fits_schema_mismatch _ sig Hp Hr arguments) in Hf.
  apply negb_true_iff in Hf.
  destruct (dispatch_fits (name tool) sig arguments w Hs Hf) as (i & Hi & Hd).
  assert (Hn : is_number (limit_of i) = true).
  { pose proof (well_typed_limit tool sig arguments Hin Hs Hw) as Hl.
    destruct Hin as [<-|[<-|[<-|[]]]]; injection Hs as <-;
      injection Hi as <-; exact Hl. }
  destruct (perform_returns_if_number i w Hn) as [result Hres].
  exists i, result. split; [exact Hi|]. split; [exact Hres|].
  rewrite call_tool_run, Hd.
  destruct (perform py_repr i w) as [r evs]. simpl in Hres. now subst r.
Qed.


Lemma invocation_of_limit (n : string) (sig : signature) (arguments : dict)
    (i : invocation) :
  signature_of n = Some sig ->
  invocation_of n arguments = Some i ->
  limit_of i =
    match dict_get "limit" arguments with
    | Some v => v
    | None => PInt (if (n =? "walmart_category_search")%string then 20 else 10)
    end.
Proof.
  unfold signature_of, invocation_of; simpl. intros Hs Hi.
  destruct (n =? "walmart_product_search")%string eqn:E1;
    [|destruct (n =? "walmart_store_search")%string eqn:E2;
      [|destruct (n =? "walmart_category_search")%string eqn:E3;
        [|discriminate]]];
    injection Hi as <-; unfold arg; simpl;
    try (apply String.eqb_eq in E1; subst n);
    try (apply String.eqb_eq in E2; subst n);
    simpl; now destruct (dict_get "limit" arguments).
Qed.

(** X8.  When the arguments of a registered operation bind and leave
    [limit] out, the default of the signature is what the one outbound call
    carries, unclamped: 10 for the product and the store search, 20 for the
    category search. *)
Theorem omitted_limit_takes_the_default (n : string) (sig : signature)
    (arguments : dict) (w : world) (t : string) :
  signature_of n = Some sig ->
  mismatch sig arguments = false ->
  dict_get "limit" arguments = None ->
  resolve_credential w = Some t ->
  exists request,
    calls (snd (call_tool py_repr json_dumps n arguments w)) = [request]
    /\ dict_get "limit" (params request) =
         Some (PInt (if (n =? "walmart_category_search")%string
                     then 20 else 10)).
Proof.
  intros Hs Hm Hl Ht.
  destruct (dispatch_fits n sig arguments w Hs Hm) as (i & Hi & Hd).
  pose proof (invocation_of_limit n sig arguments i Hs Hi) as Hlim.
  rewrite Hl in Hlim.
  set (d := if (n =? "walmart_category_search")%string then 20 else 10) in *.
  assert (Hmin : min_with_int (limit_of i) (cap_of i) = Some (PInt d)).
  { rewrite Hlim, min_with_int_PInt. do 2 f_equal.
    subst d. destruct (n =? "walmart_category_search")%string, i; simpl; lia. }
  destruct (perform_outcome i w t (PInt d) Ht Hmin) as [_ Hc].
  exists (request_of py_repr (PStr t) (PInt d) i). split.
  - rewrite call_tool_run, Hd.
    destruct (perform py_repr i w) as [[r|e] evs]; simpl in *;
      rewrite ?calls_app, Hc; reflexivity.
  - apply request_of_limit.
Qed.

(** X9.  The search target and the paging parameters are sent as they
    came, whatever their value or type: [query] and [offset] of a product
    search, [location] and [radius] of a store search. *)
Theorem search_target_is_sent_verbatim (w : world) (t : string) :
  resolve_credential w = Some t ->
  (forall query limit offset sort min_price max_price in_stock category_id lim,
     min_with_int limit 50 = Some lim ->
     exists request,
       calls (snd (walmart_product_search py_repr query limit offset sort
                     min_price max_price in_stock category_id w)) = [request]
       /\ url request = "https://api.walmart.com/v3/items/search"
       /\ dict_get "query" (params request) = Some query
       /\ dict_get "offset" (params request) = Some offset)
  /\ (forall location radius limit lim,
        min_with_int limit 20 = Some lim ->
        exists request,
          calls (snd (walmart_store_search py_repr location radius limit w))
            = [request]
          /\ url request = "https://api.walmart.com/v3/stores"
          /\ dict_get "location" (params request) = Some location
          /\ dict_get "radius" (params request) = Some radius).
Proof.
  intros Ht. split.
  - intros query limit offset sort min_price max_price in_stock category_id lim Hl.
    destruct (product_search_outcome py_repr w t query limit offset sort
                min_price max_price in_stock category_id lim Ht Hl) as [_ Hc].
    eexists. split; [exact Hc|]. split; [reflexivity|].
    unfold product_search_request, product_search_params; simpl params.
    split; now rewrite !dict_get_set_if_other by discriminate.
  - intros location radius limit lim Hl.
    destruct (store_search_outcome py_repr w t location radius limit lim Ht Hl)
      as [_ Hc].
    eexists. split; [exact Hc|]. now repeat split.
Qed.

(** X10.  The client helper never raises and never calls out: it hands on
    the token that [get_auth_token] returned, and when [get_auth_token]
    raised it returns [None] after a WARNING that carries the text of the
    exception. *)
Theorem client_helper_never_raises (w : world) :
  fst (get_walmart_client py_repr w) =
    match fst (get_auth_token py_repr w) with
    | Returns token => Returns token
    | Raises _ => Returns PNone
    end
  /\ (forall e,
        fst (get_auth_token py_repr w) = Raises e ->
        In (Logged WARNING ("Failed to get Walmart auth token: " ++ exn_str e))
          (snd (get_walmart_client py_repr w)))
  /\ calls (snd (get_walmart_client py_repr w)) = [].
Proof.
  destruct (get_auth_token_run py_repr w) as [Hr Hc].
  destruct (get_walmart_client_run py_repr w) as [Hr' Hc'].
  split; [|split; [|exact Hc']].
  - rewrite Hr', Hr. unfold client_token.
    now destruct (resolve_credential w).
  - intros e He. rewrite He in Hr.
    destruct (resolve_credential w); [discriminate|].
    injection Hr as ->.
    unfold get_walmart_client, try_except.
    destruct (get_auth_token py_repr w) as [[token|e'] evs] eqn:Hg;
      simpl in He; [discriminate|].
    injection He as ->. unfold bind. rewrite Hg. simpl.
    apply in_or_app. right. now left.
Qed.

(** X11.  [get_auth_token] writes to the log on one path only: when the
    context variable is set to the empty string, it logs at level DEBUG the
    value it read from the environment, in full ([None] when there is
    none).  When the context variable is unset, or holds a token, it logs
    nothing. *)
Theorem fallback_token_is_logged_when_context_is_empty (w : world) :
  (context_token w = Some "" ->
   snd (get_auth_token py_repr w) =
     [Logged DEBUG
        ("Using token from environment: "
           ++ match environ_token w with Some t => t | None => "None" end)])
  /\ (context_token w <> Some "" -> snd (get_auth_token py_repr w) = []).
Proof.
  destruct w as [ctx env be]; simpl.
  unfold get_auth_token, try_except, bind, auth_token_context_get,
    os_getenv_WALMART_API_KEY, ask, ret, log, emit; simpl.
  split.
  - intros ->. simpl. destruct env as [t|]; simpl; [|reflexivity].
    now destruct (t =? "")%string.
  - intros Hne. destruct ctx as [c|]; simpl.
    + destruct (c =? "")%string eqn:E; simpl; [|reflexivity].
      apply String.eqb_eq in E. subst c. contradiction.
    + destruct env as [t|]; simpl; [|reflexivity].
      now destruct (t =? "")%string.
Qed.

(** X12.  The clamp bounds a numeric limit from above only and leaves its
    type alone: a number at or below the cap, be it an [int], a [bool] or a
    [float], zero or negative, is sent as it came, and a number above the
    cap is replaced by the cap as an [int]. *)
Theorem numeric_limit_is_bounded_from_above_only (i : invocation) (w : world)
    (t : string) :
  resolve_credential w = Some t ->
  is_number (limit_of i) = true ->
  exists request,
    calls (snd (perform py_repr i w)) = [request]
    /\ dict_get "limit" (params request) =
         Some (if number_le_int (limit_of i) (cap_of i)
               then limit_of i else PInt (cap_of i)).
Proof.
  intros Ht Hn.
  destruct (perform_outcome i w t _ Ht (min_with_int_le _ (cap_of i) Hn))
    as [_ Hc].
  eexists. split; [exact Hc|]. apply request_of_limit.
Qed.

(** X13.  A body that fails to decode with an exception of the
    [RequestException] family is answered like a transport fault, with the
    operation's own message, since the clause for [RequestException] guards
    the decoding as well. *)
Theorem undecodable_body_is_answered_like_a_transport_fault (i : invocation)
    (w : world) (t : string) (lim : pyval) (response : Response) (e : exn) :
  resolve_credential w = Some t ->
  min_with_int (limit_of i) (cap_of i) = Some lim ->
  backend w (request_of py_repr (PStr t) lim i) = inr response ->
  status_error response = None ->
  body_json response = inl e ->
  exn_cls e = RequestException ->
  fst (perform py_repr i w)
    = Returns (error_envelope (transport_message py_repr i))
  /\ calls (snd (perform py_repr i w)) = [request_of py_repr (PStr t) lim i].
Proof.
  intros Ht Hl Hb Hs Hj Hcls.
  destruct (perform_outcome i w t lim Ht Hl) as [Hr Hc].
  rewrite Hb in Hr. simpl in Hr. rewrite Hs, Hj in Hr.
  unfold on_exception in Hr. rewrite Hcls in Hr. now split.
Qed.

(** X14.  A registered operation whose arguments bind but whose limit is no
    number (a string, a list, an explicit [None]) never calls out.  Without
    a credential the answer is the missing-token envelope, since the token
    is checked first; with one, the answer carries the text of the
    [TypeError] that the comparison in [min] raises. *)
Theorem incomparable_limit_is_reported_after_the_token_check (n : string)
    (sig : signature) (arguments : dict) (i : invocation) (w : world) :
  signature_of n = Some sig ->
  mismatch sig arguments = false ->
  invocation_of n arguments = Some i ->
  is_number (limit_of i) = false ->
  let run := call_tool py_repr json_dumps n arguments w in
  fst run =
    Returns [{| type := "text";
                text :=
                  json_dumps
                    (error_envelope
                       (match resolve_credential w with
                        | None => "Missing Walmart API token"
                        | Some _ => not_comparable_message (limit_of i)
                        end)) |}]
  /\ calls (snd run) = [].
Proof.
  intros Hs Hm Hi Hn run. subst run.
  destruct (dispatch_fits n sig arguments w Hs Hm) as (i' & Hi' & Hd).
  rewrite Hi in Hi'. injection Hi' as <-.
  rewrite call_tool_run, Hd.
  destruct (perform_cases i w)
    as [(Hnone & Hr & Hc)|[(t & Ht & _ & Hr & Hc)|(t & lim & _ & Hl & _)]].
  - rewrite Hnone. destruct (perform py_repr i w) as [r evs]; simpl in *.
    subst r. now split.
  - rewrite Ht. destruct (perform py_repr i w) as [r evs]; simpl in *.
    subst r. simpl. rewrite calls_app, Hc. now split.
  - apply (min_with_int_none (limit_of i) (cap_of i)) in Hn. congruence.
Qed.


(** X15.  Through the dispatcher, an advertised tool called with arguments
    that fit its schema by their names answers with the missing-token
    envelope whenever no credential resolves, whatever the values of the
    arguments are, and makes no outbound call. *)
Theorem advertised_tool_without_token (tool : Tool) (arguments : dict)
    (w : world) :
  In tool list_tools ->
  fits_schema (inputSchema tool) arguments = true ->
  has_token (context_token w) = false ->
  has_token (environ_token w) = false ->
  let run := call_tool py_repr json_dumps (name tool) arguments w in
  fst run =
    Returns [{| type := "text";
                text := json_dumps (error_envelope "Missing Walmart API token") |}]
  /\ calls (snd run) = [].
Proof.
  intros Hin Hf Hctx Henv.
  destruct (schema_fits_signature tool Hin) as (sig & Hs & Hp & Hr).
  rewrite (fits_schema_mismatch _ sig Hp Hr arguments) in Hf.
  apply negb_true_iff in Hf.
  apply (call_tool_without_token py_repr json_dumps (name tool) sig arguments w
           Hs Hf (client_token_none w Hctx Henv)).
Qed.

End GatewayCoverage.

(** ** The further properties at work on sample invocations *)

Lemma success_body_is_returned_verbatim_witness :
  let i := StoreSearch (PStr "94105") (PInt 25) (PInt 10) in
  let body := PDict [("stores", PList [])] in
  let w := world_with_body body in
  let request := request_of sample_repr (PStr "caller-token") (PInt 10) i in
  resolve_credential w = Some "caller-token"
  /\ min_with_int (limit_of i) (cap_of i) = Some (PInt 10)
  /\ backend w request = inr (answer_to request 200 "OK" (inr body))
  /\ fst (perform sample_repr i w) = Returns body
  /\ calls (snd (perform sample_repr i w)) = [request].
Proof.
  split; [reflexivity|]. split; [reflexivity|]. split; [reflexivity|].
  apply (success_body_is_returned_verbatim sample_repr
           (StoreSearch (PStr "94105") (PInt 25) (PInt 10))
           (world_with_body (PDict [("stores", PList [])])) "caller-token"
           (PInt 10)
           (answer_to
              (request_of sample_repr (PStr "caller-token") (PInt 10)
                 (StoreSearch (PStr "94105") (PInt 25) (PInt 10)))
              200 "OK" (inr (PDict [("stores", PList [])])))
           (PDict [("stores", PList [])])
           eq_refl eq_refl eq_refl eq_refl eq_refl).
Defined.

Lemma operation_raises_only_on_incomparable_limit_witness :
  let i := CategorySearch (PStr "toys") (PStr "123") (PStr "ten") in
  plain (formatted_of i) = true
  /\ fst (perform sample_repr i world_answering)
     = Raises (Exn TypeError
                 "'<' not supported between instances of 'int' and 'str'").
Proof.
  split; [reflexivity|].
  apply (proj2 (operation_raises_only_on_incomparable_limit sample_repr
                  (CategorySearch (PStr "toys") (PStr "123") (PStr "ten"))
                  world_answering
                  (Exn TypeError
                     "'<' not supported between instances of 'int' and 'str'")
                  eq_refl)).
  split; [discriminate|]. split; reflexivity.
Defined.

Lemma call_tool_always_answers_with_one_text_witness :
  let arguments := [("location", PStr "94105"); ("limit", PInt 999)] in
  forallb (fun kv => plain (snd kv)) arguments = true
  /\ exists answer,
       fst (call_tool sample_repr sample_dumps "walmart_store_search" arguments
              world_unavailable)
         = Returns [{| type := "text"; text := answer |}]
       /\ (List.length
             (calls (snd (call_tool sample_repr sample_dumps
                            "walmart_store_search" arguments
                            world_unavailable))) <= 1)%nat.
Proof.
  split; [reflexivity|].
  apply (call_tool_always_answers_with_one_text sample_repr sample_dumps
           "walmart_store_search"
           [("location", PStr "94105"); ("limit", PInt 999)] world_unavailable).
  reflexivity.
Defined.

(** The token of the context goes out, not the one of the environment. *)
Lemma every_call_carries_the_resolved_token_witness :
  let i :=
    ProductSearch (PStr "tv") (PInt 10) (PInt 0) (PStr "relevance") PNone PNone
      PNone PNone in
  let request := request_of sample_repr (PStr "caller-token") (PInt 10) i in
  In request (calls (snd (perform sample_repr i world_unavailable)))
  /\ exists t,
       fst (get_auth_token sample_repr world_unavailable) = Returns (PStr t)
       /\ t <> ""
       /\ headers request =
            [("Accept", PStr "application/json");
             ("WM_SEC.ACCESS_TOKEN", PStr t);
             ("WM_QOS.CORRELATION_ID", PStr "walmart-mcp-server")].
Proof.
  split; [left; reflexivity|].
  apply (every_call_carries_the_resolved_token sample_repr
           (ProductSearch (PStr "tv") (PInt 10) (PInt 0) (PStr "relevance")
              PNone PNone PNone PNone)
           world_unavailable).
  left; reflexivity.
Defined.

Lemma schema_fit_is_binding_success_witness :
  exists tool,
    name tool = "walmart_store_search"
    /\ In tool list_tools
    /\ exists sig,
         signature_of (name tool) = Some sig
         /\ map fst (schema_properties (inputSchema tool)) = parameters sig
         /\ (fits_schema (inputSchema tool) [("zip", PStr "94105")] = true <->
             bind_kwargs (name tool) sig [("zip", PStr "94105")]
               world_answering
               = (Returns (bound_values sig [("zip", PStr "94105")]), []))
         /\ (fits_schema (inputSchema tool) [("zip", PStr "94105")] = false <->
             exists msg,
               bind_kwargs (name tool) sig [("zip", PStr "94105")]
                 world_answering
                 = (Raises (Exn TypeError msg), [])).
Proof.
  eexists. split; [|split].
  2: { right. left. reflexivity. }
  - reflexivity.
  - apply schema_fit_is_binding_success. right. left. reflexivity.
Defined.

Lemma well_typed_arguments_reach_the_operation_witness :
  exists tool,
    let arguments := [("location", PStr "94105"); ("limit", PInt 5)] in
    name tool = "walmart_store_search"
    /\ In tool list_tools
    /\ fits_schema (inputSchema tool) arguments = true
    /\ well_typed (inputSchema tool) arguments = true
    /\ exists i result,
         invocation_of (name tool) arguments = Some i
         /\ fst (perform sample_repr i world_answering) = Returns result
         /\ fst (call_tool sample_repr sample_dumps (name tool) arguments
                   world_answering)
              = Returns [{| type := "text"; text := sample_dumps result |}].
Proof.
  eexists. split; [|split; [|split; [|split]]].
  2: { right. left. reflexivity. }
  - reflexivity.
  - reflexivity.
  - reflexivity.
  - apply well_typed_arguments_reach_the_operation;
      [right; left; reflexivity|reflexivity|reflexivity].
Defined.

Lemma omitted_limit_takes_the_default_witness :
  signature_of "walmart_category_search" = Some category_search_sig
  /\ mismatch category_search_sig [("query", PStr "toys")] = false
  /\ dict_get "limit" [("query", PStr "toys")] = None
  /\ resolve_credential world_answering = Some "env-token"
  /\ exists request,
       calls (snd (call_tool sample_repr sample_dumps "walmart_category_search"
                     [("query", PStr "toys")] world_answering)) = [request]
       /\ dict_get "limit" (params request) = Some (PInt 20).
Proof.
  split; [reflexivity|]. split; [reflexivity|]. split; [reflexivity|].
  split; [reflexivity|].
  apply (omitted_limit_takes_the_default sample_repr sample_dumps
           "walmart_category_search" category_search_sig
           [("query", PStr "toys")] world_answering "env-token"
           eq_refl eq_refl eq_refl eq_refl).
Defined.

(** A negative offset goes out as it is. *)
Lemma search_target_is_sent_verbatim_witness :
  resolve_credential world_answering = Some "env-token"
  /\ min_with_int (PInt 10) 50 = Some (PInt 10)
  /\ exists request,
       calls (snd (walmart_product_search sample_repr (PStr "tv") (PInt 10)
                     (PInt (-3)) (PStr "relevance") PNone PNone PNone PNone
                     world_answering)) = [request]
       /\ url request = "https://api.walmart.com/v3/items/search"
       /\ dict_get "query" (params request) = Some (PStr "tv")
       /\ dict_get "offset" (params request) = Some (PInt (-3)).
Proof.
  split; [reflexivity|]. split; [reflexivity|].
  apply (proj1 (search_target_is_sent_verbatim sample_repr world_answering
                  "env-token" eq_refl)
           (PStr "tv") (PInt 10) (PInt (-3)) (PStr "relevance") PNone PNone
           PNone PNone (PInt 10) eq_refl).
Defined.

Lemma fallback_token_is_logged_when_context_is_empty_witness :
  context_token world_failing = Some ""
  /\ snd (get_auth_token sample_repr world_failing)
     = [Logged DEBUG "Using token from environment: env-token"].
Proof.
  split; [reflexivity|].
  apply (proj1 (fallback_token_is_logged_when_context_is_empty sample_repr
                  world_failing) eq_refl).
Defined.

(** A limit of three and a half stores is sent as three and a half. *)
Lemma numeric_limit_is_bounded_from_above_only_witness :
  let i := StoreSearch (PStr "94105") (PInt 25) (PFloat (7 # 2)) in
  resolve_credential world_answering = Some "env-token"
  /\ is_number (limit_of i) = true
  /\ exists request,
       calls (snd (perform sample_repr i world_answering)) = [request]
       /\ dict_get "limit" (params request) = Some (PFloat (7 # 2)).
Proof.
  split; [reflexivity|]. split; [reflexivity|].
  apply (numeric_limit_is_bounded_from_above_only sample_repr
           (StoreSearch (PStr "94105") (PInt 25) (PFloat (7 # 2)))
           world_answering "env-token" eq_refl eq_refl).
Defined.

Lemma undecodable_body_is_answered_like_a_transport_fault_witness :
  let i := CategorySearch (PStr "toys") PNone (PInt 20) in
  let request := request_of sample_repr (PStr "env-token") (PInt 20) i in
  resolve_credential world_undecodable = Some "env-token"
  /\ min_with_int (limit_of i) (cap_of i) = Some (PInt 20)
  /\ fst (perform sample_repr i world_undecodable)
     = Returns (error_envelope "Could not complete Walmart category search")
  /\ calls (snd (perform sample_repr i world_undecodable)) = [request].
Proof.
  split; [reflexivity|]. split; [reflexivity|].
  apply (undecodable_body_is_answered_like_a_transport_fault sample_repr
           (CategorySearch (PStr "toys") PNone (PInt 20)) world_undecodable
           "env-token" (PInt 20)
           (answer_to
              (request_of sample_repr (PStr "env-token") (PInt 20)
                 (CategorySearch (PStr "toys") PNone (PInt 20)))
              200 "OK"
              (inl (Exn RequestException
                      "Expecting value: line 1 column 1 (char 0)")))
           (Exn RequestException "Expecting value: line 1 column 1 (char 0)")
           eq_refl eq_refl eq_refl eq_refl eq_refl eq_refl).
Defined.

(** An explicit [None] for the limit is not the default. *)
Lemma incomparable_limit_is_reported_after_the_token_check_witness :
  let arguments := [("query", PStr "tv"); ("limit", PNone)] in
  let i :=
    ProductSearch (PStr "tv") PNone (PInt 0) (PStr "relevance") PNone PNone
      PNone PNone in
  signature_of "walmart_product_search" = Some product_search_sig
  /\ mismatch product_search_sig arguments = false
  /\ invocation_of "walmart_product_search" arguments = Some i
  /\ is_number (limit_of i) = false
  /\ fst (call_tool sample_repr sample_dumps "walmart_product_search" arguments
            world_answering)
     = Returns [{| type := "text";
                   text :=
                     sample_dumps
                       (error_envelope
                          "'<' not supported between instances of 'int' and 'NoneType'") |}]
  /\ calls (snd (call_tool sample_repr sample_dumps "walmart_product_search"
                   arguments world_answering)) = [].
Proof.
  split; [reflexivity|]. split; [reflexivity|]. split; [reflexivity|].
  split; [reflexivity|].
  apply (incomparable_limit_is_reported_after_the_token_check sample_repr
           sample_dumps "walmart_product_search" product_search_sig
           [("query", PStr "tv"); ("limit", PNone)]
           (ProductSearch (PStr "tv") PNone (PInt 0) (PStr "relevance") PNone
              PNone PNone PNone)
           world_answering eq_refl eq_refl eq_refl eq_refl).
Defined.

Lemma advertised_tool_without_token_witness :
  exists tool,
    let arguments := [("query", PStr "tv"); ("limit", PStr "ten")] in
    name tool = "walmart_product_search"
    /\ In tool list_tools
    /\ fits_schema (inputSchema tool) arguments = true
    /\ has_token (context_token world_with_empty_context) = false
    /\ has_token (environ_token world_with_empty_context) = false
    /\ fst (call_tool sample_repr sample_dumps (name tool) arguments
              world_with_empty_context)
       = Returns [{| type := "text";
                     text := sample_dumps
                               (error_envelope "Missing Walmart API token") |}]
    /\ calls (snd (call_tool sample_repr sample_dumps (name tool) arguments
                     world_with_empty_context)) = [].
Proof.
  eexists. split; [|split; [|split; [|split; [|split]]]].
  2: { left. reflexivity. }
  - reflexivity.
  - reflexivity.
  - reflexivity.
  - reflexivity.
  - apply advertised_tool_without_token;
      [left; reflexivity|reflexivity|reflexivity|reflexivity].
Defined.
